(** * The Nightman Cometh: the audio processor (scripts/audio_processor.py)

    A shallow embedding of the classify / profile-selection / transcode /
    manifest pipeline of [scripts/audio_processor.py], and the theorems
    that settle the specification's claims about it.

    Conventions of the embedding.
    - A Python [str] is a Rocq [string]; a character is a code point below
      256, and [lower] is Python's [str.lower] on that range.
    - A Python [float] is a binary64 [float] of the Standard Library
      ([PrimFloat]): [+], [-], [*], [/] round to nearest-even as CPython's do.
    - A Python [dict] whose iteration order matters is an association list
      in insertion order.
    - [subprocess.run], [os.path.getsize], [Path.mkdir] and the console are
      the outside world: the console is a log that the functions take and
      return, and the calls are oracles whose answers depend on the moment
      they are asked in, one moment for each turn of the batch's loop. *)

From Stdlib Require Import List String Ascii Bool Arith ZArith Lia.
From Stdlib Require Import Floats DecimalString.
From Stdlib Require Import Permutation Sorted.
Import ListNotations.

Set Warnings "-inexact-float".

Local Open Scope string_scope.
Local Open Scope list_scope.

(** ** Python strings *)

Module PyStr.

(** [str.lower] on one code point below 256: A-Z, and the Latin-1 capitals
    U+00C0..U+00DE except the multiplication sign U+00D7, move up by 32. *)
Definition lower_char (c : ascii) : ascii :=
  let n := nat_of_ascii c in
  if (((65 <=? n) && (n <=? 90))
      || ((192 <=? n) && (n <=? 222) && negb (n =? 215)))%nat
  then ascii_of_nat (n + 32)
  else c.

Fixpoint lower (s : string) : string :=
  match s with
  | EmptyString => EmptyString
  | String c r => String (lower_char c) (lower r)
  end.

(** [s.startswith(p)] *)
Fixpoint startswith (s p : string) {struct p} : bool :=
  match p with
  | EmptyString => true
  | String a p' =>
      match s with
      | EmptyString => false
      | String b s' => Ascii.eqb a b && startswith s' p'
      end
  end.

(** [sub in s] *)
Fixpoint contains (s sub : string) : bool :=
  startswith s sub
  || match s with
     | EmptyString => false
     | String _ r => contains r sub
     end.

(** [s.replace(old, '')], for a non-empty [old]: a single scan from the
    left that drops each occurrence it meets and resumes after it.
    [skip] counts the characters of the current occurrence still to drop. *)
Fixpoint remove_from (old s : string) (skip : nat) : string :=
  match s with
  | EmptyString => EmptyString
  | String c r =>
      match skip with
      | S k => remove_from old r k
      | O =>
          if startswith s old
          then remove_from old r (String.length old - 1)
          else String c (remove_from old r 0)
      end
  end.

Definition remove (old s : string) : string := remove_from old s 0.

(** [str(n)] for an [int]. *)
Definition str_int (n : Z) : string := NilZero.string_of_int (Z.to_int n).

(** [sep.join(parts)] *)
Fixpoint join (sep : string) (parts : list string) : string :=
  match parts with
  | [] => ""
  | [p] => p
  | p :: rest => p ++ sep ++ join sep rest
  end.

(** [s.split(sep)] for a one-character separator. *)
Fixpoint split_on (sep : ascii) (s : string) : list string :=
  match s with
  | EmptyString => [""]
  | String c r =>
      if Ascii.eqb c sep then "" :: split_on sep r
      else match split_on sep r with
           | [] => [String c ""]
           | w :: ws => String c w :: ws
           end
  end.

(** [s.rfind('.')]: the index of the last dot, if there is one. *)
Fixpoint rfind_dot (s : string) : option nat :=
  match s with
  | EmptyString => None
  | String c r =>
      match rfind_dot r with
      | Some i => Some (S i)
      | None => if Ascii.eqb c "."%char then Some 0 else None
      end
  end.

(** [s[:n]] *)
Fixpoint take (n : nat) (s : string) : string :=
  match n, s with
  | S k, String c r => String c (take k r)
  | _, _ => EmptyString
  end.

End PyStr.

(** ** The category registry ([AUDIO_CATEGORIES], [OPTIMIZATION_PROFILES]) *)

Definition AUDIO_CATEGORIES : list (string * list string) :=
  [ ("combat",
     [ "shotgun_fire"; "shotgun_empty"; "shotgun_reload";
       "hatchet_swing"; "hatchet_hit_flesh"; "hatchet_miss";
       "Heavy_double-barrel"; "Dry_click_of_empty"; "Shotgun_shell_loadin";
       "Fast_whoosh_sound" ]);
    ("nightman",
     [ "nightman_footstep_heavy"; "nightman_footstep_light";
       "nightman_growl_low"; "nightman_growl_aggressive";
       "nightman_attack_swing"; "nightman_attack_hit";
       "nightman_damaged"; "nightman_death";
       "Massive_creature_foo"; "Heavy_human-sized_fo";
       "Deep_guttural_monste"; "guttural_demon_hunti";
       "Massive_creature_arm"; "Heavy_impact_of_mons";
       "Monster_pain_roar"; "Massive_creature_dyi" ]);
    ("transformation",
     [ "bone_crack_1"; "bone_crack_2"; "bone_crack_3";
       "transformation_whoosh"; "transformation_complete";
       "Wet_bone_snapping"; "Multiple_bones_break";
       "Final_massive_bone"; "Dark_ethereal_whoosh";
       "Ominous_low_rumble" ]);
    ("environment",
     [ "window_tap_light"; "window_tap_heavy"; "window_scratch";
       "window_break"; "door_creak"; "door_rattle";
       "door_bang_heavy"; "door_splinter";
       "Light_tapping_on_woo"; "Heavy_pounding_on_wo";
       "Sharp_claws_scratchi"; "wooden_board_shatter";
       "Door_handle_rattling"; "Massive_impact_on_wo";
       "Wood_door_splinterin"; "qubodup-DoorClose08";
       "qubodup-DoorOpen08" ]);
    ("items",
     [ "ammo_pickup"; "wood_pickup"; "board_hammer";
       "pickup_ammo_sound"; "wood_pickup_sound";
       "Hammering_nail_into"; "tree_falls_down" ]);
    ("player",
     [ "player_hit_light"; "player_hit_heavy";
       "player_death"; "player_heartbeat";
       "Male_grunt_of_pain"; "Male_scream_of_agony";
       "Male_death_scream"; "Realistic_heartbeat" ]);
    ("ambient",
     [ "forest_night_loop"; "wind_trees";
       "cabin_ambience"; "nightman_roar_distant";
       "stepdirt_1"; "stepdirt_2"; "stepwood_1"; "stepwood_2" ]) ].

(** One value of [OPTIMIZATION_PROFILES]; the field names are the dict's
    keys ([format'] stands for ['format']). *)
Record Profile : Type := mkProfile {
  format' : string;
  bitrate : string;
  sample_rate : Z;
  channels : Z;
  normalize : bool;
  compression : string;
  quality : Z
}.

Definition OPTIMIZATION_PROFILES : list (string * Profile) :=
  [ ("combat",         mkProfile "ogg" "96k" 44100 1 true  "vorbis" 6);
    ("nightman",       mkProfile "ogg" "80k" 44100 1 true  "vorbis" 5);
    ("transformation", mkProfile "ogg" "96k" 44100 1 true  "vorbis" 6);
    ("environment",    mkProfile "ogg" "64k" 44100 1 true  "vorbis" 4);
    ("items",          mkProfile "ogg" "64k" 44100 1 true  "vorbis" 4);
    ("player",         mkProfile "ogg" "80k" 44100 1 true  "vorbis" 5);
    ("ambient",        mkProfile "ogg" "96k" 44100 2 false "vorbis" 6) ].

(** [d[key]] on a dict held as an association list: [None] is [KeyError]. *)
Fixpoint dict_get {V : Type} (d : list (string * V)) (key : string) : option V :=
  match d with
  | [] => None
  | (k, v) :: rest => if String.eqb k key then Some v else dict_get rest key
  end.

(** ** The classifier ([categorize_file]) *)

(** The inner loop: [True] as soon as a keyword, lowered, occurs in the
    lowered filename. *)
Fixpoint any_keyword (filename : string) (keywords : list string) : bool :=
  match keywords with
  | [] => false
  | keyword :: rest =>
      if PyStr.contains (PyStr.lower filename) (PyStr.lower keyword)
      then true
      else any_keyword filename rest
  end.

(** The outer loop over the [items()] of a registry, with the default
    after it. *)
Fixpoint categorize_in (cats : list (string * list string))
         (filename : string) : string :=
  match cats with
  | [] => "ambient"
  | (category, keywords) :: rest =>
      if any_keyword filename keywords then category
      else categorize_in rest filename
  end.

Definition categorize_file (filename : string) : string :=
  categorize_in AUDIO_CATEGORIES filename.

(** ** Paths ([pathlib], POSIX flavour)

    A path is its anchor (is it absolute?) and its parts; empty and ["."]
    components are dropped when a string is parsed, [".."] is kept.  Paths
    that start with exactly two slashes are not distinguished from absolute
    ones. *)

Module PyPath.

Record t : Type := mk { anchored : bool; parts : list string }.

Definition kept (component : string) : bool :=
  negb (String.eqb component "") && negb (String.eqb component ".").

(** [Path(s)] *)
Definition Path (s : string) : t :=
  mk (PyStr.startswith s "/") (filter kept (PyStr.split_on "/"%char s)).

(** [p / s] *)
Definition joinpath (p : t) (s : string) : t :=
  let q := Path s in
  if anchored q then q else mk (anchored p) (parts p ++ parts q).

(** [p.name] *)
Definition name (p : t) : string := last (parts p) "".

(** [p.parent] *)
Definition parent (p : t) : t := mk (anchored p) (removelast (parts p)).

(** [p.stem]: the name up to its last dot, unless that dot is the first
    or the last character of the name (CPython up to 3.13; the names the
    batch globs, [*.wav] and [*.ogg], never end with a dot). *)
Definition stem (p : t) : string :=
  let n := name p in
  match PyStr.rfind_dot n with
  | Some i =>
      if ((0 <? i) && (i <? String.length n - 1))%nat
      then PyStr.take i n else n
  | None => n
  end.

Fixpoint strip_prefix (base l : list string) : option (list string) :=
  match base with
  | [] => Some l
  | b :: base' =>
      match l with
      | [] => None
      | x :: l' => if String.eqb b x then strip_prefix base' l' else None
      end
  end.

(** [p.relative_to(base)]; [None] is [ValueError]. *)
Definition relative_to (p base : t) : option t :=
  if Bool.eqb (anchored p) (anchored base) then
    match strip_prefix (parts base) (parts p) with
    | Some rest => Some (mk false rest)
    | None => None
    end
  else None.

(** [str(p)] *)
Definition str (p : t) : string :=
  match anchored p, parts p with
  | false, [] => "."
  | false, ps => PyStr.join "/" ps
  | true, ps => "/" ++ PyStr.join "/" ps
  end.

End PyPath.

(** ** Effects: exceptions and the console

    A computation takes the lines printed so far and either returns a value
    or raises; either way it hands back the lines printed. *)

Inductive exn : Type :=
| ZeroDivisionError
| OSError
| ValueError
| KeyError
| SubprocessError.

Inductive result (A : Type) : Type :=
| Ok (a : A)
| Raise (e : exn).

Arguments Ok {A} a.
Arguments Raise {A} e.

(** What [print] writes, by the statement that writes it; the numbers a
    line formats are kept as numbers. *)
Inductive Line : Type :=
| Error_optimizing (input_path : string) (e : exn)
| Rule
| Optimizing_audio_files
| Processing (file : string)
| Category (category : string)
| Profile_line (bitrate : string) (channels sample_rate : Z)
| OK_line (size_before size_after compression_ratio : float)
| FAIL_line
| Optimization_results
| Total_size_before (kb mb : float)
| Total_size_after (kb mb : float)
| Space_saved (kb percent : float)
| Generating_audio_manifest.

Definition M (A : Type) : Type := list Line -> result A * list Line.

Definition ret {A : Type} (a : A) : M A := fun out => (Ok a, out).

Definition raise {A : Type} (e : exn) : M A := fun out => (Raise e, out).

Definition bind {A B : Type} (m : M A) (k : A -> M B) : M B :=
  fun out =>
    match m out with
    | (Ok a, out') => k a out'
    | (Raise e, out') => (Raise e, out')
    end.

Definition print (l : Line) : M unit := fun out => (Ok tt, out ++ [l]).

(** [try: body  except Exception as e: handler(e)] *)
Definition try_except {A : Type} (body : M A) (handler : exn -> M A) : M A :=
  fun out =>
    match body out with
    | (Ok a, out') => (Ok a, out')
    | (Raise e, out') => handler e out'
    end.

(** The value of an outside call, or the exception it raised. *)
Definition lift {A : Type} (r : result A) : M A := fun out => (r, out).

Declare Scope py_scope.
Delimit Scope py_scope with py.
Notation "x <- m ;; k" := (bind m (fun x => k))
  (at level 61, m at next level, right associativity) : py_scope.
Notation "m ;; k" := (bind m (fun _ => k))
  (at level 61, right associativity) : py_scope.

(** ** Python arithmetic on [float] *)

Module PyFloat.

Local Open Scope float_scope.

(** [x / y]: division by zero (of either sign) raises. *)
Definition truediv (x y : float) : result float :=
  if PrimFloat.eqb y 0 then Raise ZeroDivisionError else Ok (x / y).

(** [n / 1024] for a file size [n] in bytes, [0 <= n < 2^63]: the
    conversion rounds to nearest-even and the division by a power of two is
    exact, which is the correctly rounded quotient Python computes. *)
Definition kilobytes (n : Z) : float :=
  PrimFloat.of_uint63 (Uint63.of_Z n) / 1024.

(** [x > 0] *)
Definition positive (x : float) : bool := PrimFloat.ltb 0 x.

(** The running sum [0 + x1 + x2 + ...], left to right. *)
Definition sum (xs : list float) : float :=
  fold_left PrimFloat.add xs 0.

End PyFloat.

(** ** The outside world

    What the outside world answers depends on when it is asked: the encoder
    writes files while the batch runs, and two inputs of one stem share one
    output, so the size of a path measured after one encoding need not be
    its size after the next.

    A [Moment] is the outside world at one moment.  [subprocess_run cmd] is
    what [subprocess.run(cmd, ...)] does then: it returns a completed
    process, of which only the return code is read, or raises.
    [getsize path] and [mkdir path] are [os.path.getsize] and
    [Path.mkdir(parents=True, exist_ok=True)]. *)
Record Moment : Type := mkMoment {
  subprocess_run : list string -> result Z;
  getsize : string -> result Z;
  mkdir : string -> result unit
}.

(** A [World] is the outside world in the course of a run of the batch:
    what it answers during each turn of the loop over the analysed files,
    the turns counted from zero.  One turn makes each of the three calls at
    most once (the directory, then the encoder, then the size of its
    output), so every sequence of answers a run can meet is some [World]. *)
Definition World : Type := nat -> Moment.

(** ** The transcoder ([optimize_audio_file]) *)

Definition loudnorm : string := "loudnorm=I=-16:TP=-1.5:LRA=11".

(** The command line, built as the source builds it: the list literal,
    [extend] under the test, then [append]. *)
Definition ffmpeg_cmd (input_path output_path : string) (profile : Profile)
  : list string :=
  let cmd :=
    [ "ffmpeg";
      "-i"; input_path;
      "-y";
      "-acodec"; "libvorbis";
      "-ac"; PyStr.str_int (channels profile);
      "-ar"; PyStr.str_int (sample_rate profile);
      "-q:a"; PyStr.str_int (quality profile) ] in
  let cmd :=
    if normalize profile then cmd ++ ["-af"; loudnorm] else cmd in
  cmd ++ [output_path].

Section Transcoder.

(** The outside world at the time of the call. *)
Variable moment : Moment.

Local Open Scope py_scope.

Definition optimize_audio_file (input_path output_path : string)
           (profile : Profile) : M bool :=
  try_except
    (returncode <- lift (subprocess_run moment
                           (ffmpeg_cmd input_path output_path profile)) ;;
     ret (Z.eqb returncode 0))
    (fun e => print (Error_optimizing input_path e) ;; ret false).

End Transcoder.

(** ** The sprite builder ([create_audio_sprite_manifest]) *)

(** What the analyzer returns for a file it could probe. *)
Record AssetInfo : Type := mkInfo {
  file : string;
  size_kb : float;
  codec : string;
  info_sample_rate : Z;
  info_channels : Z;
  info_bitrate : Z;
  duration : float
}.

Record SpriteEntry : Type := mkSprite {
  start : float;
  end' : float;
  loop : bool
}.

(** [d[key] = v] on a dict held in insertion order: a key already there
    keeps its place and takes the new value. *)
Fixpoint dict_set {V : Type} (d : list (string * V)) (key : string) (v : V)
  : list (string * V) :=
  match d with
  | [] => [(key, v)]
  | (k, v0) :: rest =>
      if String.eqb k key then (k, v) :: rest
      else (k, v0) :: dict_set rest key v
  end.

Record SpriteManifest : Type := mkSpriteManifest {
  resources : list (string * string);
  spritemap : list (string * SpriteEntry)
}.

Module Sprite.

Local Open Scope float_scope.

(** The state of the loop: the map built so far and [current_time]. *)
Definition state : Type := (list (string * SpriteEntry) * float)%type.

(** One turn of the loop; [info] is [None] for a failed analysis. *)
Definition step (st : state) (item : string * option AssetInfo) : state :=
  let '(map, current_time) := st in
  let '(filepath, info) := item in
  match info with
  | Some info =>
      if PyFloat.positive (duration info) then
        let filename := PyPath.stem (PyPath.Path filepath) in
        (dict_set map filename
           (mkSprite current_time (current_time + duration info) false),
         current_time + (duration info + 0.1))
      else st
  | None => st
  end.

Definition run (files : list (string * option AssetInfo)) (st : state)
  : state :=
  fold_left step files st.

End Sprite.

Definition create_audio_sprite_manifest
           (files : list (string * option AssetInfo)) : SpriteManifest :=
  mkSpriteManifest [] (fst (Sprite.run files ([], 0%float))).

(** ** The batch ([main], from the optimisation loop to the manifest)

    The analysis loop that precedes it only probes the files; its outcome,
    [analysis_results], is the input here, and [total_size_before] is
    accumulated over it as that loop does. *)

Record FileEntry : Type := mkEntry {
  original : string;
  optimized : string;
  category : string;
  size_before : float;
  size_after : float
}.

Record Manifest : Type := mkManifest {
  version : string;
  files : list FileEntry;
  categories : list (string * list string);
  total_files : Z;
  total_size_kb : float
}.

Definition audio_dir : PyPath.t := PyPath.Path "public/assets/audio".

Definition output_dir : PyPath.t :=
  PyPath.Path "public/assets/audio/optimized".

(** [output_dir / category / (input_path.stem + '.ogg')] *)
Definition output_path_of (filepath category : string) : PyPath.t :=
  let input_path := PyPath.Path filepath in
  let output_filename := (PyPath.stem input_path ++ ".ogg")%string in
  PyPath.joinpath (PyPath.joinpath output_dir category) output_filename.

Definition total_size_before (analysis_results : list (string * AssetInfo))
  : float :=
  fold_left (fun total item => (total + size_kb (snd item))%float)
            analysis_results 0%float.

(** The two accumulators of the loop. *)
Record Acc : Type := mkAcc {
  total_size_after : float;
  optimized_files : list FileEntry
}.

Section Turn.

(** The outside world during the turn. *)
Variable moment : Moment.

Local Open Scope py_scope.

(** The body of [for filepath, info in analysis_results]. *)
Definition optimize_one (acc : Acc) (item : string * AssetInfo) : M Acc :=
  let '(filepath, info) := item in
  let category := categorize_file (file info) in
  profile <- lift (match dict_get OPTIMIZATION_PROFILES category with
                   | Some p => Ok p
                   | None => Raise KeyError
                   end) ;;
  let output_path := output_path_of filepath category in
  lift (mkdir moment (PyPath.str (PyPath.parent output_path))) ;;
  print (Processing (file info)) ;;
  print (Category category) ;;
  print (Profile_line (bitrate profile) (channels profile)
                      (sample_rate profile)) ;;
  ok <- optimize_audio_file moment filepath (PyPath.str output_path)
                            profile ;;
  if ok then
    bytes <- lift (getsize moment (PyPath.str output_path)) ;;
    let optimized_size := PyFloat.kilobytes bytes in
    let total := (total_size_after acc + optimized_size)%float in
    q <- lift (PyFloat.truediv optimized_size (size_kb info)) ;;
    let compression_ratio := ((1 - q) * 100)%float in
    print (OK_line (size_kb info) optimized_size compression_ratio) ;;
    rel <- lift (match PyPath.relative_to output_path audio_dir with
                 | Some r => Ok r
                 | None => Raise ValueError
                 end) ;;
    ret (mkAcc total
               (optimized_files acc ++
                [mkEntry (file info) (PyPath.str rel) category
                         (size_kb info) optimized_size]))
  else
    print FAIL_line ;;
    ret acc.

End Turn.

Section Main.

Variable world : World.

Local Open Scope py_scope.

(** The loop [for filepath, info in analysis_results], from its turn number
    [turn] on: each turn meets the outside world of its own moment. *)
Fixpoint optimize_all (turn : nat)
         (analysis_results : list (string * AssetInfo))
         (acc : Acc) : M Acc :=
  match analysis_results with
  | [] => ret acc
  | item :: rest =>
      acc' <- optimize_one (world turn) acc item ;;
      optimize_all (S turn) rest acc'
  end.

Definition main (analysis_results : list (string * AssetInfo))
  : M Manifest :=
  let before := total_size_before analysis_results in
  print Optimizing_audio_files ;;
  print Rule ;;
  acc <- optimize_all 0 analysis_results (mkAcc 0%float []) ;;
  print Rule ;;
  print Optimization_results ;;
  print (Total_size_before before (before / 1024)%float) ;;
  print (Total_size_after (total_size_after acc)
                          (total_size_after acc / 1024)%float) ;;
  q <- lift (PyFloat.truediv (total_size_after acc) before) ;;
  print (Space_saved (before - total_size_after acc)%float
                     ((1 - q) * 100)%float) ;;
  print Generating_audio_manifest ;;
  ret (mkManifest "1.0" (optimized_files acc) AUDIO_CATEGORIES
                  (Z.of_nat (List.length (optimized_files acc)))
                  (total_size_after acc)).

End Main.

(** ** The key of a file in the generated map ([generate_typescript_map]) *)

Definition sanitize_key (original : string) : string :=
  let key := PyStr.remove ".ogg" (PyStr.remove ".wav" original) in
  let key :=
    PyStr.remove "#4-" (PyStr.remove "#3-"
      (PyStr.remove "#2-" (PyStr.remove "#1-" key))) in
  PyStr.remove "_#" key.

(** ** The generated map ([generate_typescript_map])

    The text is built as the source builds it, by appending to [ts].  Two
    library functions are left to the caller: [format_1f x] is the text of
    [f"{x:.1f}"] and [upper s] is [s.upper()]. *)

(** [sorted(d.items())] for a dict with string keys: the keys of a dict are
    distinct, so the order of two items is that of their keys, compared
    code point by code point. *)
Fixpoint insert_item {V : Type} (item : string * V)
         (items : list (string * V)) : list (string * V) :=
  match items with
  | [] => [item]
  | next :: rest =>
      if String.leb (fst item) (fst next) then item :: items
      else next :: insert_item item rest
  end.

Definition sorted_items {V : Type} (items : list (string * V))
  : list (string * V) :=
  fold_right insert_item [] items.

Module TsMap.

Local Open Scope string_scope.

(** The line feed. *)
Definition nl : string := String (ascii_of_nat 10) "".

(** A triple-quoted block: every line ends with a line feed. *)
Fixpoint block (lines : list string) : string :=
  match lines with
  | [] => ""
  | line :: rest => line ++ nl ++ block rest
  end.

Definition header : string :=
  block
    [ "/**";
      " * Audio Map - Generated by audio_processor.py";
      " * Maps audio file identifiers to optimized file paths";
      " */";
      "";
      "export type AudioCategory = 'combat' | 'nightman' | 'transformation' |";
      "                            'environment' | 'items' | 'player' | 'ambient';";
      "";
      "export interface AudioFile {";
      "  path: string;";
      "  category: AudioCategory;";
      "  originalSize: number;";
      "  optimizedSize: number;";
      "}";
      "";
      "export const AUDIO_MAP: Record<string, AudioFile> = {" ].

Definition footer : string :=
  block
    [ "};";
      "";
      "export function getAudioPath(key: string): string {";
      "  const audio = AUDIO_MAP[key];";
      "  if (!audio) {";
      "    console.warn(`Audio file not found: ${key}`);";
      "    return '';";
      "  }";
      "  return audio.path;";
      "}";
      "";
      "export function getAudiosByCategory(category: AudioCategory): AudioFile[] {";
      "  return Object.values(AUDIO_MAP).filter(a => a.category === category);";
      "}" ].

(** One turn of the grouping loop: a category met for the first time gets
    an empty list, then the file is appended to the list of its
    category. *)
Definition group_step (by_category : list (string * list FileEntry))
           (file : FileEntry) : list (string * list FileEntry) :=
  let category := category file in
  let by_category :=
    match dict_get by_category category with
    | None => dict_set by_category category []
    | Some _ => by_category
    end in
  let category_files :=
    match dict_get by_category category with
    | Some l => l
    | None => []
    end in
  dict_set by_category category (category_files ++ [file])%list.

Definition by_category (files : list FileEntry)
  : list (string * list FileEntry) :=
  fold_left group_step files [].

End TsMap.

Section TypescriptMap.

Variable format_1f : float -> string.

Variable upper : string -> string.

Local Open Scope string_scope.

(** The six lines appended for one file. *)
Definition append_file (category : string) (ts : string) (file : FileEntry)
  : string :=
  let key := sanitize_key (original file) in
  let ts := ts ++ "  '" ++ key ++ "': {" ++ TsMap.nl in
  let ts := ts ++ "    path: '/assets/audio/" ++ optimized file ++ "',"
               ++ TsMap.nl in
  let ts := ts ++ "    category: '" ++ category ++ "'," ++ TsMap.nl in
  let ts := ts ++ "    originalSize: " ++ format_1f (size_before file) ++ ","
               ++ TsMap.nl in
  let ts := ts ++ "    optimizedSize: " ++ format_1f (size_after file)
               ++ TsMap.nl in
  ts ++ "  }," ++ TsMap.nl.

(** The comment line of a category, then its files. *)
Definition append_category (ts : string)
           (item : string * list FileEntry) : string :=
  let '(category, category_files) := item in
  let ts := ts ++ TsMap.nl ++ "  // " ++ upper category ++ TsMap.nl in
  fold_left (append_file category) category_files ts.

Definition generate_typescript_map (files : list FileEntry) : string :=
  let by_category := TsMap.by_category files in
  let ts := TsMap.header in
  let ts := fold_left append_category (sorted_items by_category) ts in
  ts ++ TsMap.footer.

End TypescriptMap.

(** ** The command line of the model converters
       ([parse_args] of scripts/convert-trees.py and
       scripts/convert-bushes.py)

    [sys.argv] is a list of strings.  The loop
    [for i in range(0, len(script_args), 2): if i + 1 < len(script_args)]
    takes the arguments two by two, a key and its value, and leaves a last
    argument without a partner alone. *)

Module Argv.

(** [s.lstrip('-')] *)
Fixpoint lstrip_dash (s : string) : string :=
  match s with
  | EmptyString => EmptyString
  | String c r => if Ascii.eqb c "-"%char then lstrip_dash r else s
  end.

(** [argv[argv.index('--') + 1:]]; [None] is the [ValueError] of [index]
    when there is no ['--']. *)
Fixpoint after_separator (argv : list string) : option (list string) :=
  match argv with
  | [] => None
  | arg :: rest =>
      if String.eqb arg "--" then Some rest else after_separator rest
  end.

End Argv.

Module ConvertTrees.

Definition DEFAULT_INPUT : string := "tree/Trees/Trees.fbx".

Definition DEFAULT_OUTPUT : string := "public/assets/models/trees".

Definition CREATE_STUMPS : bool := false.

(** The dict [args], with its three keys. *)
Record Args : Type := mkArgs {
  input : string;
  output : string;
  create_stumps : bool
}.

Fixpoint parse_pairs (script_args : list string) (args : Args) : Args :=
  match script_args with
  | arg :: value :: rest =>
      let key := Argv.lstrip_dash arg in
      let args :=
        if String.eqb key "input"
        then mkArgs value (output args) (create_stumps args)
        else if String.eqb key "output"
        then mkArgs (input args) value (create_stumps args)
        else if String.eqb key "no-stumps"
        then mkArgs (input args) (output args) false
        else args in
      parse_pairs rest args
  | _ => args
  end.

Definition parse_args (argv : list string) : Args :=
  let args := mkArgs DEFAULT_INPUT DEFAULT_OUTPUT CREATE_STUMPS in
  match Argv.after_separator argv with
  | Some script_args => parse_pairs script_args args
  | None => args
  end.

End ConvertTrees.

Module ConvertBushes.

Definition DEFAULT_INPUT : string :=
  "C:\Users\Mattm\X\the-nightman-cometh\tree_pack_1.1 (1)\tree_pack_1.1".

Definition DEFAULT_OUTPUT : string :=
  "C:\Users\Mattm\X\the-nightman-cometh\public\assets\models\bushes".

(** The dict [args], with its two keys. *)
Record Args : Type := mkArgs {
  input : string;
  output : string
}.

Fixpoint parse_pairs (script_args : list string) (args : Args) : Args :=
  match script_args with
  | arg :: value :: rest =>
      let key := Argv.lstrip_dash arg in
      let args :=
        if String.eqb key "input" then mkArgs value (output args)
        else if String.eqb key "output" then mkArgs (input args) value
        else args in
      parse_pairs rest args
  | _ => args
  end.

Definition parse_args (argv : list string) : Args :=
  let args := mkArgs DEFAULT_INPUT DEFAULT_OUTPUT in
  match Argv.after_separator argv with
  | Some script_args => parse_pairs script_args args
  | None => args
  end.

End ConvertBushes.

(** ** The analysis loop of [main]

    The loop over [sorted(audio_files)].  [analyze_audio_file] probes a
    file with an outside tool and parses its answer: here it is an oracle
    that returns the information or [None] (its own error line apart).
    [audio_files] is what the two globs found. *)

Module PathOrder.

(** What two paths are compared by: the parts, led by the root if there
    is one (as CPython up to 3.11 has it; later versions compare the parts
    of the string form, which orders the results of a glob in one
    directory the same way). *)
Definition cparts (p : PyPath.t) : list string :=
  if PyPath.anchored p then "/" :: PyPath.parts p else PyPath.parts p.

(** The order of two lists of strings: the first difference decides, and a
    list that ends first comes first. *)
Fixpoint compare (a b : list string) : comparison :=
  match a, b with
  | [], [] => Eq
  | [], _ :: _ => Lt
  | _ :: _, [] => Gt
  | x :: a', y :: b' =>
      match String.compare x y with
      | Eq => compare a' b'
      | c => c
      end
  end.

(** [p <= q] *)
Definition leb (p q : PyPath.t) : bool :=
  match compare (cparts p) (cparts q) with
  | Gt => false
  | _ => true
  end.

Fixpoint insert (p : PyPath.t) (sorted : list PyPath.t) : list PyPath.t :=
  match sorted with
  | [] => [p]
  | q :: rest => if leb p q then p :: sorted else q :: insert p rest
  end.

(** [sorted(paths)] *)
Definition sorted (paths : list PyPath.t) : list PyPath.t :=
  fold_right insert [] paths.

End PathOrder.

(** What the analysis loop prints. *)
Inductive AnalysisLine : Type :=
| Analysed_line (file : string) (size_kb : float) (codec : string)
                (sample_rate channels : Z) (category : string)
| Analysis_rule
| Total_files (count : Z)
| Total_size (kb mb : float).

Record Analysis : Type := mkAnalysis {
  analysed : list (string * AssetInfo);
  size_before_total : float;
  analysis_console : list AnalysisLine
}.

Section AnalysisLoop.

Variable analyze_audio_file : string -> option AssetInfo.

(** The body of [for filepath in sorted(audio_files)]. *)
Definition analyse_one (st : Analysis) (filepath : PyPath.t) : Analysis :=
  match analyze_audio_file (PyPath.str filepath) with
  | Some info =>
      let category := categorize_file (file info) in
      mkAnalysis
        (analysed st ++ [(PyPath.str filepath, info)])
        (size_before_total st + size_kb info)%float
        (analysis_console st
         ++ [Analysed_line (file info) (size_kb info) (codec info)
                           (info_sample_rate info) (info_channels info)
                           category])
  | None => st
  end.

Definition analyse_all (audio_files : list PyPath.t) : Analysis :=
  let st := fold_left analyse_one (PathOrder.sorted audio_files)
                      (mkAnalysis [] 0%float []) in
  mkAnalysis
    (analysed st)
    (size_before_total st)
    (analysis_console st
     ++ [ Analysis_rule;
          Total_files (Z.of_nat (List.length (analysed st)));
          Total_size (size_before_total st)
                     (size_before_total st / 1024)%float ]).

End AnalysisLoop.

(** * Vocabulary of the statements *)

(** ** Substrings, keywords and the passes of the sanitiser *)

Section Strings.

Local Open Scope string_scope.

(** [sub] occurs in [s]. *)
Definition occurs_in (sub s : string) : Prop :=
  exists a b : string, s = (a ++ sub ++ b)%string.

(** [keyword] occurs in [filename], case ignored. *)
Definition keyword_matches (filename keyword : string) : Prop :=
  occurs_in (PyStr.lower keyword) (PyStr.lower filename).

(** Some keyword of the list occurs in [filename], case ignored. *)
Definition category_matches (filename : string) (keywords : list string)
  : Prop :=
  exists keyword, In keyword keywords /\ keyword_matches filename keyword.

(** What the two loops compute, for any registry: the first category of
    the registry that matches, or ["ambient"] when none does. *)
Definition first_match (cats : list (string * list string))
           (filename result : string) : Prop :=
  (exists before category keywords after,
      cats = (before ++ (category, keywords) :: after)%list
      /\ category_matches filename keywords
      /\ (forall c ks, In (c, ks) before -> ~ category_matches filename ks)
      /\ result = category)
  \/ ((forall c ks, In (c, ks) cats -> ~ category_matches filename ks)
      /\ result = "ambient").

(** The character [c] does not occur in [s]. *)
Fixpoint lacks (c : ascii) (s : string) : bool :=
  match s with
  | EmptyString => true
  | String x r => negb (Ascii.eqb x c) && lacks c r
  end.

(** Neither a dot nor a hash occurs in [s]. *)
Definition plain (s : string) : bool := lacks "." s && lacks "#" s.

Definition extensions : list string := [".wav"; ".ogg"].

Definition markers : list string := ["#1-"; "#2-"; "#3-"; "#4-"].

(** The three groups of passes of [sanitize_key]. *)
Definition strip_extensions (s : string) : string :=
  PyStr.remove ".ogg" (PyStr.remove ".wav" s).

Definition strip_markers (s : string) : string :=
  PyStr.remove "#4-" (PyStr.remove "#3-"
    (PyStr.remove "#2-" (PyStr.remove "#1-" s))).

(** One left-to-right pass over a string that removes [old]: where an
    occurrence of [old] starts, it is dropped and the pass resumes after
    it; where none starts, the character is kept.  So every occurrence met
    is removed, wherever it stands, and what the removals bring together
    is not looked at again. *)
Inductive Pass (old : string) : string -> string -> Prop :=
| Pass_end : Pass old "" ""
| Pass_drop (rest r : string) :
    Pass old rest r -> Pass old (old ++ rest) r
| Pass_keep (c : ascii) (s r : string) :
    (forall rest, String c s <> old ++ rest) ->
    Pass old s r -> Pass old (String c s) (String c r).

(** One pass for each string of a list, in the order of the list, each on
    the outcome of the one before. *)
Fixpoint Passes (olds : list string) (s key : string) : Prop :=
  match olds with
  | [] => key = s
  | old :: rest => exists mid, Pass old s mid /\ Passes rest mid key
  end.

(** The decimal digits that no marker of the sanitiser carries. *)
Definition other_digits : list ascii :=
  ["0"; "5"; "6"; "7"; "8"; "9"]%char.

End Strings.

(** ** The two enumerations and the options of a command line *)

(** The categories as the specification enumerates them. *)
Definition spec_enumeration : list string :=
  [ "combat"; "creature"; "transformation"; "environment"; "items";
    "player"; "ambient" ].

(** The categories as the registry declares them. *)
Definition registry_enumeration : list string :=
  [ "combat"; "nightman"; "transformation"; "environment"; "items";
    "player"; "ambient" ].

(** How many profiles the table holds under a key. *)
Definition profiles_for (category : string) : nat :=
  count_occ string_dec (map fst OPTIMIZATION_PROFILES) category.

(** The arguments between the input and the output of a command line. *)
Definition encoder_options (cmd : list string) : list string :=
  removelast (skipn 3 cmd).

(** ** The sprite timeline *)

Section Timeline.

Local Open Scope float_scope.

(** The asset has a known, strictly positive duration. *)
Definition has_duration (info : option AssetInfo) : bool :=
  match info with
  | Some info => PyFloat.positive (duration info)
  | None => false
  end.

(** The timeline as the specification words it: a cursor; an asset with a
    positive duration [d] takes the interval from the cursor to the cursor
    plus [d], and moves the cursor on by [d + 0.1]; any other asset takes
    nothing and leaves the cursor.  An entry is the asset's stem with its
    interval. *)
Fixpoint timeline (cursor : float) (files : list (string * option AssetInfo))
  : list (string * SpriteEntry) :=
  match files with
  | [] => []
  | (filepath, Some info) :: rest =>
      if PyFloat.positive (duration info)
      then (PyPath.stem (PyPath.Path filepath),
            mkSprite cursor (cursor + duration info) false)
           :: timeline (cursor + (duration info + 0.1)) rest
      else timeline cursor rest
  | (_, None) :: rest => timeline cursor rest
  end.

(** Where the cursor stands after the assets [files]. *)
Fixpoint cursor_after (cursor : float)
         (files : list (string * option AssetInfo)) : float :=
  match files with
  | [] => cursor
  | (_, Some info) :: rest =>
      if PyFloat.positive (duration info)
      then cursor_after (cursor + (duration info + 0.1)) rest
      else cursor_after cursor rest
  | (_, None) :: rest => cursor_after cursor rest
  end.

(** Writing the entries of a timeline into a dict, one after the other. *)
Definition store (map : list (string * SpriteEntry))
           (entries : list (string * SpriteEntry))
  : list (string * SpriteEntry) :=
  fold_left (fun m ke => dict_set m (fst ke) (snd ke)) entries map.

(** What holds of an entry [e] under the key [key] of the map built from
    [files]: it does not loop, and some asset of [files] with that stem
    and a positive duration [d] has [e.end = e.start + d]. *)
Definition entry_of_asset (files : list (string * option AssetInfo))
           (key : string) (e : SpriteEntry) : Prop :=
  loop e = false
  /\ exists filepath info,
      In (filepath, Some info) files
      /\ key = PyPath.stem (PyPath.Path filepath)
      /\ PyFloat.positive (duration info) = true
      /\ end' e = start e + duration info.

End Timeline.

(** ** What a run does with a file *)

Section Moments.

Variable moment : Moment.

Local Open Scope string_scope.

(** The category the batch files an analysed file under. *)
Definition category_of (item : string * AssetInfo) : string :=
  categorize_file (file (snd item)).

(** The path the encoder is told to write for it. *)
Definition output_of (item : string * AssetInfo) : string :=
  PyPath.str (output_path_of (fst item) (category_of item)).

(** The directory the batch asks [mkdir] for before it encodes a file. *)
Definition directory_of (item : string * AssetInfo) : string :=
  PyPath.str (PyPath.parent (output_path_of (fst item) (category_of item))).

(** What the encoder process does for it at this moment. *)
Definition encoder_result_at (item : string * AssetInfo) : result Z :=
  match dict_get OPTIMIZATION_PROFILES (category_of item) with
  | Some profile =>
      subprocess_run moment (ffmpeg_cmd (fst item) (output_of item) profile)
  | None => Raise KeyError
  end.

(** The encoder succeeds for it: the process completes with code zero. *)
Definition transcoded_at (item : string * AssetInfo) : bool :=
  match encoder_result_at item with
  | Ok returncode => Z.eqb returncode 0
  | Raise _ => false
  end.

(** The lines a failed file leaves on the console. *)
Definition failure_report_at (item : string * AssetInfo) : list Line :=
  match dict_get OPTIMIZATION_PROFILES (category_of item) with
  | Some profile =>
      ([ Processing (file (snd item));
         Category (category_of item);
         Profile_line (bitrate profile) (channels profile)
                      (sample_rate profile) ]
       ++ match encoder_result_at item with
          | Raise e => [Error_optimizing (fst item) e]
          | Ok _ => []
          end
       ++ [FAIL_line])%list
  | None => []
  end.

(** The manifest entry of a file whose output measures [bytes]. *)
Definition entry_of (item : string * AssetInfo) (bytes : Z) : FileEntry :=
  mkEntry (file (snd item))
          ("optimized/" ++ category_of item ++ "/"
           ++ PyPath.stem (PyPath.Path (fst item)) ++ ".ogg")
          (category_of item)
          (size_kb (snd item))
          (PyFloat.kilobytes bytes).

(** The outside world lets the turn of a file through: its directory can
    be made and, if the encoder succeeds, the output can be measured and
    the analysed size is not zero. *)
Definition runnable_at (item : string * AssetInfo) : Prop :=
  mkdir moment (directory_of item) = Ok tt
  /\ (transcoded_at item = true ->
      (exists bytes, getsize moment (output_of item) = Ok bytes)
      /\ PrimFloat.eqb (size_kb (snd item)) 0 = false).

End Moments.

(** ** The turns of a run *)

(** An analysed file with the number of its turn in the loop. *)
Definition Turn : Type := (nat * (string * AssetInfo))%type.

Fixpoint turns_from (turn : nat) (results : list (string * AssetInfo))
  : list Turn :=
  match results with
  | [] => []
  | item :: rest => (turn, item) :: turns_from (S turn) rest
  end.

(** The turns of a run over [results]: the files in their order, the first
    in turn zero. *)
Definition turns (results : list (string * AssetInfo)) : list Turn :=
  turns_from 0 results.

Section Runs.

Variable world : World.

(** What the encoder process does for the file of a turn, asked in that
    turn. *)
Definition encoder_result (t : Turn) : result Z :=
  encoder_result_at (world (fst t)) (snd t).

(** The encoder succeeds in that turn. *)
Definition transcoded (t : Turn) : bool :=
  transcoded_at (world (fst t)) (snd t).

(** The lines a failed turn leaves on the console. *)
Definition failure_report (t : Turn) : list Line :=
  failure_report_at (world (fst t)) (snd t).

(** The size of the output of a turn's file, measured in that turn. *)
Definition measured (t : Turn) : result Z :=
  getsize (world (fst t)) (output_of (snd t)).

(** The outside world lets the turn through. *)
Definition runnable (t : Turn) : Prop :=
  runnable_at (world (fst t)) (snd t).

(** The entries the loop adds are those of the turns the encoder succeeded
    in, in order, each with the size of its output as measured in its own
    turn. *)
Definition entries_of (ts : list Turn) (entries : list FileEntry) : Prop :=
  Forall2 (fun t e =>
             exists bytes,
               measured t = Ok bytes /\ e = entry_of (snd t) bytes)
          (filter transcoded ts) entries.

(** Every failed turn of [ts] has its report among the lines [l]. *)
Definition failures_reported (ts : list Turn) (l : list Line) : Prop :=
  forall t,
    In t ts -> transcoded t = false ->
    exists l1 l2, l = (l1 ++ failure_report t ++ l2)%list.

End Runs.

(** ** Manifests, and runs to try the theorems on *)

(** The manifest entry of the specification for an analysed file: the
    original name, the classifier's category, and the path
    [optimized/<category>/<stem>.ogg]. *)
Definition placed (item : string * AssetInfo) (e : FileEntry) : Prop :=
  original e = file (snd item)
  /\ category e = categorize_file (file (snd item))
  /\ optimized e
     = ("optimized/" ++ categorize_file (file (snd item)) ++ "/"
        ++ PyPath.stem (PyPath.Path (fst item)) ++ ".ogg")%string.

(** The name of the file of a turn. *)
Definition name_of (t : Turn) : string := file (snd (snd t)).

(** A run isolates the failures of the encoder: it ends with a manifest;
    the entries of [files] are those of the turns the encoder succeeded
    in, in order, each with the size measured in its own turn, and the
    totals count and add up those alone; and for every turn the encoder
    failed in, its report, which ends with the failure line, is on the
    console, and no entry carries the name of its file (the names of a
    directory being distinct). *)
Definition isolates_failures (world : World)
           (results : list (string * AssetInfo)) (out : list Line) : Prop :=
  exists manifest out',
    main world results out = (Ok manifest, out')
    /\ entries_of world (turns results) (files manifest)
    /\ List.map original (files manifest)
       = List.map name_of (filter (transcoded world) (turns results))
    /\ total_files manifest
       = Z.of_nat (List.length (filter (transcoded world) (turns results)))
    /\ total_size_kb manifest
       = PyFloat.sum (List.map size_after (files manifest))
    /\ forall t,
        In t (turns results) -> transcoded world t = false ->
        (exists l1 l2,
            out' = l1 ++ failure_report world t ++ l2
            /\ last (failure_report world t) Rule = FAIL_line)
        /\ (NoDup (List.map (fun item => file (snd item)) results) ->
            ~ In (name_of t) (List.map original (files manifest))).

(** A run the theorems are tried on: the encoder fails for [bad.wav] and
    succeeds for [shotgun_fire.wav], whose output measures 2048 bytes. *)
Definition demo_world : World :=
  fun _ =>
    mkMoment
      (fun cmd =>
         if String.eqb (nth 2 cmd "") "public/assets/audio/bad.wav"
         then Ok 1%Z else Ok 0%Z)
      (fun _ => Ok 2048%Z)
      (fun _ => Ok tt).

Definition demo_results : list (string * AssetInfo) :=
  [ ("public/assets/audio/bad.wav",
     mkInfo "bad.wav" 100 "pcm_s16le" 44100 1 705 1);
    ("public/assets/audio/shotgun_fire.wav",
     mkInfo "shotgun_fire.wav" 100 "pcm_s16le" 44100 1 705 1) ].

Definition demo_manifest : Manifest :=
  mkManifest "1.0"
    [ mkEntry "shotgun_fire.wav" "optimized/combat/shotgun_fire.ogg"
              "combat" 100 2 ]
    AUDIO_CATEGORIES 1 2.

Definition demo_out : list Line :=
  snd (main demo_world demo_results []).

(** A run in which two inputs share one output: [shotgun_fire.ogg] and
    [shotgun_fire.wav] are both written to
    [optimized/combat/shotgun_fire.ogg], which measures 1024 bytes after
    the first encoding (turn 1) and 3072 bytes after the second (turn 2);
    the encoder fails for [bad.wav] (turn 0). *)
Definition shared_output : string :=
  "public/assets/audio/optimized/combat/shotgun_fire.ogg".

Definition shared_world : World :=
  fun turn =>
    mkMoment
      (fun cmd =>
         if String.eqb (nth 2 cmd "") "public/assets/audio/bad.wav"
         then Ok 1%Z else Ok 0%Z)
      (fun path =>
         if String.eqb path shared_output
         then Ok (match turn with
                  | 0%nat => 0
                  | 1%nat => 1024
                  | _ => 3072
                  end)%Z
         else Raise OSError)
      (fun _ => Ok tt).

Definition shared_results : list (string * AssetInfo) :=
  [ ("public/assets/audio/bad.wav",
     mkInfo "bad.wav" 100 "pcm_s16le" 44100 1 705 1);
    ("public/assets/audio/shotgun_fire.ogg",
     mkInfo "shotgun_fire.ogg" 50 "vorbis" 44100 1 96 1);
    ("public/assets/audio/shotgun_fire.wav",
     mkInfo "shotgun_fire.wav" 100 "pcm_s16le" 44100 1 705 1) ].

Definition shared_manifest : Manifest :=
  mkManifest "1.0"
    [ mkEntry "shotgun_fire.ogg" "optimized/combat/shotgun_fire.ogg"
              "combat" 50 1;
      mkEntry "shotgun_fire.wav" "optimized/combat/shotgun_fire.ogg"
              "combat" 100 3 ]
    AUDIO_CATEGORIES 2 4.

Definition shared_out : list Line :=
  snd (main shared_world shared_results []).

(** What measuring the outputs of the entries of a manifest again would
    find in the moment [later], each path taken under the audio
    directory. *)
Definition rescanned (later : Moment) (manifest : Manifest)
  : list (result Z) :=
  List.map (fun e => getsize later ("public/assets/audio/" ++ optimized e))
           (files manifest).

(** ** Lookups in the sprite map *)

(** The entry a key is left with once the entries of a timeline have been
    written in order: the last one under that key. *)
Fixpoint last_under (key : string) (entries : list (string * SpriteEntry))
  : option SpriteEntry :=
  match entries with
  | [] => None
  | (k, e) :: rest =>
      match last_under key rest with
      | Some e' => Some e'
      | None => if String.eqb k key then Some e else None
      end
  end.

(** ** The substrings the sanitiser looks for, and the categories a
       filename is tried against *)

Definition patterns : list string :=
  [".wav"; ".ogg"; "#1-"; "#2-"; "#3-"; "#4-"; "_#"].

(** The categories the classifier's outer loop visits for a filename, up
    to and including the one it returns from (all of them when none
    matches). *)
Fixpoint visited (cats : list (string * list string)) (filename : string)
  : list string :=
  match cats with
  | [] => []
  | (category, keywords) :: rest =>
      category
      :: (if any_keyword filename keywords then [] else visited rest filename)
  end.

(** ** What a run prints *)

(** The names on the [Processing] lines of a console, in order. *)
Fixpoint processed (l : list Line) : list string :=
  match l with
  | [] => []
  | Processing name :: rest => name :: processed rest
  | _ :: rest => processed rest
  end.

(** The status lines of a console, in order: [true] for an [OK] line,
    [false] for a [FAIL] line. *)
Fixpoint statuses (l : list Line) : list bool :=
  match l with
  | [] => []
  | OK_line _ _ _ :: rest => true :: statuses rest
  | FAIL_line :: rest => false :: statuses rest
  | _ :: rest => statuses rest
  end.

(** ** The order of the items of a dict *)

(** The key of the first item is at most the key of the second. *)
Definition key_le {V : Type} (a b : string * V) : Prop :=
  String.leb (fst a) (fst b) = true.

(** ** The text of the generated map *)

Section MapText.

Variable format_1f : float -> string.

Variable upper : string -> string.

Local Open Scope string_scope.

(** The strings of a list, one after the other. *)
Fixpoint joined (parts : list string) : string :=
  match parts with
  | [] => ""
  | part :: rest => part ++ joined rest
  end.

(** The files of a category, in the order of the input. *)
Definition files_of (category_name : string) (files : list FileEntry)
  : list FileEntry :=
  filter (fun file => String.eqb (category file) category_name) files.

(** The record of a file in the generated table: its six lines. *)
Definition record (category_name : string) (file : FileEntry) : string :=
  append_file format_1f category_name "" file.

(** The part of the table for a category: its comment line, then the
    records of its files. *)
Definition category_part (files : list FileEntry) (category_name : string)
  : string :=
  TsMap.nl ++ "  // " ++ upper category_name ++ TsMap.nl
  ++ joined (List.map (record category_name)
                      (files_of category_name files)).

(** The part of the text an item of the sorted dict gives. *)
Definition item_part (item : string * list FileEntry) : string :=
  TsMap.nl ++ "  // " ++ upper (fst item) ++ TsMap.nl
  ++ joined (List.map (record (fst item)) (snd item)).

(** The categories of the files, in the order the table lists them. *)
Definition listed_categories (files : list FileEntry) : list string :=
  List.map fst (sorted_items (TsMap.by_category files)).

End MapText.

(** ** Reading a command line *)

(** The value of the last pair of [script_args] whose key, leading dashes
    apart, is [key]; an argument left without a partner is no pair. *)
Fixpoint last_value (key : string) (script_args : list string)
  : option string :=
  match script_args with
  | arg :: value :: rest =>
      match last_value key rest with
      | Some later => Some later
      | None =>
          if String.eqb (Argv.lstrip_dash arg) key then Some value else None
      end
  | _ => None
  end.

(** What a key is set to by a command line: the value of its last pair
    after the separator, or the default. *)
Definition setting (key default : string) (argv : list string) : string :=
  match Argv.after_separator argv with
  | Some script_args =>
      match last_value key script_args with
      | Some value => value
      | None => default
      end
  | None => default
  end.

(** ** The files an analysis keeps *)

(** The analysed files among [paths], in that order, each with its path
    as a string. *)
Definition analysable (analyze_audio_file : string -> option AssetInfo)
           (paths : list PyPath.t) : list (string * AssetInfo) :=
  flat_map (fun p =>
              match analyze_audio_file (PyPath.str p) with
              | Some info => [(PyPath.str p, info)]
              | None => []
              end)
           paths.

(** * Theorems *)

(** ** Substrings *)

Lemma startswith_spec (p s : string) :
  PyStr.startswith s p = true <-> exists r, s = (p ++ r)%string.
Proof.
  revert s; induction p as [|a p IH]; intros s; simpl.
  - split; [intros _; now exists s | reflexivity].
  - destruct s as [|b s]; simpl.
    + split; [discriminate | intros [r Hr]; discriminate].
    + rewrite andb_true_iff, Ascii.eqb_eq, IH. split.
      * intros [-> [r ->]]. now exists r.
      * intros [r Hr]. injection Hr as -> ->. split; [reflexivity | now exists r].
Qed.

Lemma contains_spec (sub s : string) :
  PyStr.contains s sub = true <-> occurs_in sub s.
Proof.
  unfold occurs_in. induction s as [|c s IH].
  - simpl. rewrite orb_false_r, startswith_spec. split.
    + intros [r Hr]. exists "", r. exact Hr.
    + intros [a [b H]]. destruct a; [now exists b | discriminate].
  - cbn [PyStr.contains]. rewrite orb_true_iff, startswith_spec, IH. split.
    + intros [[r Hr] | [a [b H]]].
      * exists "", r. exact Hr.
      * exists (String c a), b. simpl. now rewrite H.
    + intros [a [b H]]. destruct a as [|c' a].
      * left. now exists b.
      * right. simpl in H. injection H as _ H. now exists a, b.
Qed.

(** ** The classifier *)

Lemma any_keyword_spec (filename : string) (keywords : list string) :
  any_keyword filename keywords = true <-> category_matches filename keywords.
Proof.
  unfold category_matches, keyword_matches.
  induction keywords as [|k ks IH]; simpl.
  - split; [discriminate | intros [k [[] _]]].
  - destruct (PyStr.contains (PyStr.lower filename) (PyStr.lower k)) eqn:E.
    + split; [intros _ | reflexivity].
      exists k. split; [now left | now apply contains_spec].
    + rewrite IH. split.
      * intros [k' [Hin Hm]]. exists k'. split; [now right | exact Hm].
      * intros [k' [[<- | Hin] Hm]].
        -- apply contains_spec in Hm. congruence.
        -- now exists k'.
Qed.

Lemma categorize_in_first_match (cats : list (string * list string))
      (filename : string) :
  first_match cats filename (categorize_in cats filename).
Proof.
  unfold first_match. induction cats as [|[c ks] rest IH]; simpl.
  - right. split; [intros ? ? [] | reflexivity].
  - destruct (any_keyword filename ks) eqn:E.
    + left. exists [], c, ks, rest. repeat split.
      * now apply any_keyword_spec.
      * intros ? ? [].
    + assert (Hno : ~ category_matches filename ks).
      { intros H. apply any_keyword_spec in H. congruence. }
      destruct IH as [(before & c' & ks' & after & -> & Hm & Hfirst & Hr)
                     | [Hnone Hr]].
      * left. exists ((c, ks) :: before), c', ks', after. repeat split; trivial.
        intros c0 ks0 [H | H]; [injection H as <- <-; exact Hno | eauto].
      * right. split; [|exact Hr].
        intros c0 ks0 [H | H]; [injection H as <- <-; exact Hno | eauto].
Qed.

Lemma categorize_in_default (cats : list (string * list string))
      (filename : string) :
  categorize_in cats filename = "ambient"
  \/ In (categorize_in cats filename) (map fst cats).
Proof.
  induction cats as [|[c ks] rest IH]; simpl; [now left|].
  destruct (any_keyword filename ks); [right; now left|].
  destruct IH as [IH | IH]; [now left | right; now right].
Qed.

Lemma categorize_in_registry (cats : list (string * list string))
      (filename : string) :
  In "ambient" (map fst cats) ->
  In (categorize_in cats filename) (map fst cats).
Proof.
  intros Hamb.
  destruct (categorize_in_default cats filename) as [-> | H]; assumption.
Qed.

(** C1. For every filename [categorize_file] returns one category of the
    registry, and it is the first category, in the registry's declared
    order, one of whose keywords occurs in the filename with case ignored;
    when no keyword of any category occurs it is ["ambient"].  So of two
    categories that both match, the one declared later is never returned. *)
Theorem categorize_file_first_match (filename : string) :
  In (categorize_file filename) (map fst AUDIO_CATEGORIES)
  /\ first_match AUDIO_CATEGORIES filename (categorize_file filename)
  /\ (forall l1 c1 ks1 l2 c2 ks2 l3,
         AUDIO_CATEGORIES = l1 ++ (c1, ks1) :: l2 ++ (c2, ks2) :: l3 ->
         category_matches filename ks1 ->
         categorize_file filename <> c2).
Proof.
  split; [|split].
  - apply categorize_in_registry. simpl. tauto.
  - apply categorize_in_first_match.
  - intros l1 c1 ks1 l2 c2 ks2 l3 Hreg Hm1 Hres.
    assert (Hnodup : NoDup (map fst AUDIO_CATEGORIES)).
    { repeat constructor; simpl; intuition discriminate. }
    rewrite Hreg in Hnodup.
    destruct (categorize_in_first_match AUDIO_CATEGORIES filename)
      as [(before & c & ks & after & Hsplit & Hm & Hfirst & Hr) | [Hnone _]].
    + fold (categorize_file filename) in Hr. rewrite Hres in Hr. subst c.
      (* the winner sits at or before [c1], yet carries the name [c2] *)
      assert (Hin : In c2 (map fst (l1 ++ [(c1, ks1)]))).
      { rewrite Hreg in Hsplit. clear Hreg Hres Hnodup.
        revert before Hsplit Hfirst.
        induction l1 as [|[x kx] l1 IH]; intros before Hsplit Hfirst.
        - destruct before as [|[y ky] before]; simpl in *.
          + injection Hsplit as -> _ _. now left.
          + injection Hsplit as <- <- _.
            exfalso. apply (Hfirst c1 ks1); [now left | exact Hm1].
        - destruct before as [|[y ky] before]; simpl in *.
          + injection Hsplit as -> _ _. now left.
          + injection Hsplit as _ _ Hsplit. right.
            apply (IH before Hsplit). intros; eapply Hfirst; eauto. }
      replace (l1 ++ (c1, ks1) :: l2 ++ (c2, ks2) :: l3)
        with ((l1 ++ [(c1, ks1)]) ++ l2 ++ (c2, ks2) :: l3) in Hnodup
        by (rewrite <- app_assoc; reflexivity).
      rewrite map_app in Hnodup.
      revert Hin Hnodup. generalize (map fst (l1 ++ [(c1, ks1)])).
      intros l Hin Hnodup. induction l as [|x l IH]; [destruct Hin|].
      simpl in Hnodup. inversion Hnodup as [|? ? Hx Hrest]; subst.
      destruct Hin as [-> | Hin]; [|now apply IH].
      apply Hx. apply in_or_app. right.
      rewrite map_app. apply in_or_app. right. now left.
    + apply (Hnone c1 ks1); [|exact Hm1].
      rewrite Hreg. apply in_or_app. right. now left.
Qed.

(** The specification's scenarios: [shotgun_fire.wav] is combat, with the
    mono, 44.1 kHz, quality 6 profile; [random_clang.wav] matches nothing
    and is ambient.  A name that matches a nightman keyword and a player
    keyword is nightman, the category declared first. *)
Example classifier_scenarios :
  categorize_file "shotgun_fire.wav" = "combat"
  /\ dict_get OPTIMIZATION_PROFILES (categorize_file "shotgun_fire.wav")
     = Some (mkProfile "ogg" "96k" 44100 1 true "vorbis" 6)
  /\ categorize_file "random_clang.wav" = "ambient"
  /\ categorize_file "Player_Death_by_NIGHTMAN_DEATH.wav" = "nightman".
Proof. repeat split. Qed.

(** ** The registry: one profile for every category *)

(** C5, as stated, fails: the specification's enumeration names a category
    ["creature"], which is no key of either table, so the lookup of its
    profile is a [KeyError]. *)
Lemma creature_has_no_profile :
  In "creature" spec_enumeration
  /\ dict_get OPTIMIZATION_PROFILES "creature" = None
  /\ profiles_for "creature" = 0%nat
  /\ ~ In "creature" (map fst AUDIO_CATEGORIES).
Proof.
  repeat split; try reflexivity.
  - simpl. tauto.
  - simpl. intuition discriminate.
Qed.

(** C5, amended.  The categories are combat, nightman, transformation,
    environment, items, player and ambient; each has exactly one profile in
    the table, and the lookup of the profile of the classifier's output
    succeeds for every filename. *)
Theorem profile_for_every_category :
  map fst AUDIO_CATEGORIES = registry_enumeration
  /\ Forall (fun category =>
               profiles_for category = 1%nat
               /\ exists profile,
                   dict_get OPTIMIZATION_PROFILES category = Some profile)
            registry_enumeration
  /\ forall filename, exists profile,
       dict_get OPTIMIZATION_PROFILES (categorize_file filename)
       = Some profile.
Proof.
  assert (Hall : Forall (fun category =>
               profiles_for category = 1%nat
               /\ exists profile,
                   dict_get OPTIMIZATION_PROFILES category = Some profile)
            registry_enumeration).
  { repeat constructor; eexists; reflexivity. }
  split; [reflexivity | split; [exact Hall|]].
  intros filename.
  assert (Hin : In (categorize_file filename) registry_enumeration).
  { change registry_enumeration with (map fst AUDIO_CATEGORIES).
    apply categorize_in_registry. simpl. tauto. }
  rewrite Forall_forall in Hall. now apply Hall.
Qed.

(** ** The transcoder *)

(** [str(n)] starts with a digit or, below zero, with a minus sign followed
    by a digit: it is never one of the option words of the command line. *)
Lemma str_int_not_option (n : Z) :
  PyStr.str_int n <> "-af" /\ PyStr.str_int n <> loudnorm.
Proof.
  unfold PyStr.str_int, loudnorm.
  destruct (Z.to_int n) as [d | d]; destruct d; simpl;
    try (split; discriminate).
  all: destruct d; simpl; split; discriminate.
Qed.

(** C7. The command line is [ffmpeg -i input -y -acodec libvorbis], then
    the profile's channel count after [-ac], its sample rate after [-ar]
    and its quality after [-q:a], then the loudness filter
    [loudnorm=I=-16:TP=-1.5:LRA=11] after [-af] exactly when
    [profile.normalize] is true, then the output. *)
Theorem ffmpeg_cmd_shape (input_path output_path : string)
        (profile : Profile) :
  let cmd := ffmpeg_cmd input_path output_path profile in
  cmd = [ "ffmpeg"; "-i"; input_path; "-y"; "-acodec"; "libvorbis";
          "-ac"; PyStr.str_int (channels profile);
          "-ar"; PyStr.str_int (sample_rate profile);
          "-q:a"; PyStr.str_int (quality profile) ]
        ++ (if normalize profile
            then ["-af"; "loudnorm=I=-16:TP=-1.5:LRA=11"] else [])
        ++ [output_path]
  /\ (In "loudnorm=I=-16:TP=-1.5:LRA=11" (encoder_options cmd)
      <-> normalize profile = true)
  /\ (In "-af" (encoder_options cmd) <-> normalize profile = true).
Proof.
  unfold ffmpeg_cmd, encoder_options.
  destruct (str_int_not_option (channels profile)) as [Hc1 Hc2].
  destruct (str_int_not_option (sample_rate profile)) as [Hs1 Hs2].
  destruct (str_int_not_option (quality profile)) as [Hq1 Hq2].
  unfold loudnorm in *.
  destruct (normalize profile); simpl.
  - repeat split; trivial; intros _; tauto.
  - repeat split; trivial; try discriminate;
      intros H; exfalso;
      repeat (destruct H as [H | H]; [try discriminate; congruence|]);
      exact H.
Qed.

(** C6. [optimize_audio_file] always returns a boolean and never raises:
    the boolean is true exactly when the encoder process completed with
    return code zero; on any other return code it is false, and when the
    invocation raised it is false after the error has been printed. *)
Theorem optimize_audio_file_total (moment : Moment)
        (input_path output_path : string) (profile : Profile)
        (out : list Line) :
  exists (b : bool) (out' : list Line),
    optimize_audio_file moment input_path output_path profile out
    = (Ok b, out')
    /\ (b = true <->
        subprocess_run moment (ffmpeg_cmd input_path output_path profile)
        = Ok 0%Z)
    /\ match subprocess_run moment
               (ffmpeg_cmd input_path output_path profile) with
       | Ok returncode =>
           b = Z.eqb returncode 0 /\ out' = out
       | Raise e =>
           b = false /\ out' = out ++ [Error_optimizing input_path e]
       end.
Proof.
  unfold optimize_audio_file, try_except, bind, lift, ret, print.
  destruct (subprocess_run moment _) as [rc | e] eqn:E.
  - exists (Z.eqb rc 0), out. repeat split; trivial.
    + intros H. apply Z.eqb_eq in H. now subst.
    + intros H. injection H as ->. reflexivity.
  - exists false, (out ++ [Error_optimizing input_path e]).
    repeat split; trivial; discriminate.
Qed.

(** ** The key sanitiser *)

Section Sanitiser.

Local Open Scope string_scope.

Lemma lacks_app (c : ascii) (a b : string) :
  lacks c (a ++ b) = lacks c a && lacks c b.
Proof.
  induction a as [|x a IH]; simpl; [reflexivity|].
  now rewrite IH, andb_assoc.
Qed.

Lemma plain_app (a b : string) : plain (a ++ b) = plain a && plain b.
Proof.
  unfold plain. rewrite !lacks_app.
  destruct (lacks "." a), (lacks "." b), (lacks "#" a), (lacks "#" b);
    reflexivity.
Qed.

Lemma append_empty (s : string) : s ++ "" = s.
Proof. induction s as [|c s IH]; simpl; [reflexivity | now rewrite IH]. Qed.

Lemma append_assoc (a b c : string) : (a ++ b) ++ c = a ++ b ++ c.
Proof. induction a as [|x a IH]; simpl; [reflexivity | now rewrite IH]. Qed.

(** A string that lacks a character of [old] has no occurrence of [old]. *)
Lemma lacks_no_occurrence (c : ascii) (old s : string) :
  lacks c s = true -> lacks c old = false -> PyStr.contains s old = false.
Proof.
  intros Hs Hold. destruct (PyStr.contains s old) eqn:E; [|reflexivity].
  apply contains_spec in E. destruct E as [a [b ->]].
  rewrite !lacks_app, Hold in Hs.
  now rewrite andb_false_l, andb_false_r in Hs.
Qed.

(** Without an occurrence there is nothing to remove. *)
Lemma remove_absent (old s : string) :
  PyStr.contains s old = false -> PyStr.remove old s = s.
Proof.
  unfold PyStr.remove. induction s as [|c s IH]; [reflexivity|].
  cbn [PyStr.contains PyStr.remove_from]. intros H.
  apply orb_false_iff in H. destruct H as [-> H].
  now rewrite IH.
Qed.

Lemma remove_lacks (c : ascii) (old s : string) :
  lacks c s = true -> lacks c old = false -> PyStr.remove old s = s.
Proof.
  intros Hs Hold. apply remove_absent.
  now apply lacks_no_occurrence with (c := c).
Qed.

(** The scan copies a stretch that lacks the first character of [old]. *)
Lemma remove_passes (h : ascii) (t a rest : string) :
  lacks h a = true ->
  PyStr.remove (String h t) (a ++ rest)
  = a ++ PyStr.remove (String h t) rest.
Proof.
  unfold PyStr.remove. induction a as [|c a IH]; [reflexivity|].
  simpl. intros H. apply andb_true_iff in H. destruct H as [Hc Ha].
  apply negb_true_iff in Hc. rewrite Ascii.eqb_sym in Hc.
  rewrite Hc. simpl. now rewrite IH.
Qed.

Lemma remove_from_skip (old x rest : string) :
  PyStr.remove_from old (x ++ rest) (String.length x)
  = PyStr.remove_from old rest 0.
Proof.
  induction x as [|c x IH]; simpl; [reflexivity | exact IH].
Qed.

(** An occurrence at the head is dropped and the scan resumes after it. *)
Lemma remove_at_head (h : ascii) (t rest : string) :
  PyStr.remove (String h t) (String h t ++ rest)
  = PyStr.remove (String h t) rest.
Proof.
  unfold PyStr.remove.
  change (String h t ++ rest) with (String h (t ++ rest)).
  cbn [PyStr.remove_from].
  assert (E : PyStr.startswith (String h (t ++ rest)) (String h t) = true).
  { apply startswith_spec. now exists rest. }
  rewrite E.
  replace (String.length (String h t) - 1)%nat with (String.length t)
    by (simpl; lia).
  apply remove_from_skip.
Qed.

(** The scan for ["_#"] copies a stretch without a hash, provided the rest
    does not begin with one. *)
Lemma remove_underscore_hash_passes (a rest : string) :
  lacks "#" a = true ->
  PyStr.startswith rest "#" = false ->
  PyStr.remove "_#" (a ++ rest) = a ++ PyStr.remove "_#" rest.
Proof.
  unfold PyStr.remove. induction a as [|c a IH]; [reflexivity|].
  intros Ha Hrest. cbn [lacks] in Ha. apply andb_true_iff in Ha.
  destruct Ha as [Hc Ha].
  change (String c a ++ rest) with (String c (a ++ rest)).
  cbn [PyStr.remove_from].
  assert (E : PyStr.startswith (String c (a ++ rest)) "_#" = false).
  { cbn [PyStr.startswith]. destruct (Ascii.eqb "_" c); [|reflexivity].
    rewrite andb_true_l. destruct a as [|c' a'].
    - exact Hrest.
    - cbn [lacks] in Ha. apply andb_true_iff in Ha. destruct Ha as [Hc' _].
      apply negb_true_iff in Hc'. rewrite Ascii.eqb_sym in Hc'.
      change (String c' a' ++ rest) with (String c' (a' ++ rest)).
      cbn [PyStr.startswith]. now rewrite Hc'. }
  rewrite E. cbn [append]. now rewrite IH.
Qed.

Lemma strip_extensions_suffix (s ext : string) :
  lacks "." s = true -> In ext extensions ->
  strip_extensions (s ++ ext) = s.
Proof.
  unfold strip_extensions.
  intros Hs [<- | [<- | []]]; rewrite remove_passes by exact Hs.
  - change (PyStr.remove ".wav" ".wav") with "".
    rewrite append_empty. now apply remove_lacks with (c := "."%char).
  - change (PyStr.remove ".wav" ".ogg") with ".ogg".
    rewrite remove_passes by exact Hs.
    change (PyStr.remove ".ogg" ".ogg") with "". apply append_empty.
Qed.

Lemma strip_markers_plain (s : string) :
  lacks "#" s = true -> strip_markers s = s.
Proof.
  intros Hs. unfold strip_markers.
  rewrite (remove_lacks "#" "#1-" s), (remove_lacks "#" "#2-" s),
    (remove_lacks "#" "#3-" s), (remove_lacks "#" "#4-" s);
    trivial; reflexivity.
Qed.

Lemma strip_markers_marker (a m b : string) :
  lacks "#" a = true -> lacks "#" b = true -> In m markers ->
  strip_markers (a ++ m ++ b) = a ++ b.
Proof.
  intros Ha Hb Hm. unfold strip_markers.
  assert (Hab : lacks "#" (a ++ b) = true) by now rewrite lacks_app, Ha, Hb.
  assert (Hkeep : forall old, lacks "#" old = false ->
                              PyStr.remove old (a ++ b) = a ++ b).
  { intros old Hold. now apply remove_lacks with (c := "#"%char). }
  assert (Hb' : forall h t, lacks "#" (String h t) = false ->
                            PyStr.remove (String h t) b = b).
  { intros h t Hold. now apply remove_lacks with (c := "#"%char). }
  destruct Hm as [<- | [<- | [<- | [<- | []]]]].
  - rewrite (remove_passes "#" "1-" a) by exact Ha.
    rewrite remove_at_head, Hb' by reflexivity.
    now rewrite !Hkeep by reflexivity.
  - rewrite (remove_passes "#" "1-" a) by exact Ha.
    replace (PyStr.remove "#1-" ("#2-" ++ b)) with ("#2-" ++ b)
      by (unfold PyStr.remove; simpl; fold (PyStr.remove "#1-" b);
          now rewrite Hb' by reflexivity).
    rewrite (remove_passes "#" "2-" a) by exact Ha.
    rewrite remove_at_head, Hb' by reflexivity.
    now rewrite !Hkeep by reflexivity.
  - rewrite (remove_passes "#" "1-" a) by exact Ha.
    replace (PyStr.remove "#1-" ("#3-" ++ b)) with ("#3-" ++ b)
      by (unfold PyStr.remove; simpl; fold (PyStr.remove "#1-" b);
          now rewrite Hb' by reflexivity).
    rewrite (remove_passes "#" "2-" a) by exact Ha.
    replace (PyStr.remove "#2-" ("#3-" ++ b)) with ("#3-" ++ b)
      by (unfold PyStr.remove; simpl; fold (PyStr.remove "#2-" b);
          now rewrite Hb' by reflexivity).
    rewrite (remove_passes "#" "3-" a) by exact Ha.
    rewrite remove_at_head, Hb' by reflexivity.
    now rewrite !Hkeep by reflexivity.
  - rewrite (remove_passes "#" "1-" a) by exact Ha.
    replace (PyStr.remove "#1-" ("#4-" ++ b)) with ("#4-" ++ b)
      by (unfold PyStr.remove; simpl; fold (PyStr.remove "#1-" b);
          now rewrite Hb' by reflexivity).
    rewrite (remove_passes "#" "2-" a) by exact Ha.
    replace (PyStr.remove "#2-" ("#4-" ++ b)) with ("#4-" ++ b)
      by (unfold PyStr.remove; simpl; fold (PyStr.remove "#2-" b);
          now rewrite Hb' by reflexivity).
    rewrite (remove_passes "#" "3-" a) by exact Ha.
    replace (PyStr.remove "#3-" ("#4-" ++ b)) with ("#4-" ++ b)
      by (unfold PyStr.remove; simpl; fold (PyStr.remove "#3-" b);
          now rewrite Hb' by reflexivity).
    rewrite (remove_passes "#" "4-" a) by exact Ha.
    now rewrite remove_at_head, Hb' by reflexivity.
Qed.

Lemma startswith_digit_dash (d : ascii) (b : string) :
  lacks "-" b = true -> PyStr.startswith b (String d "-") = false.
Proof.
  destruct b as [|c1 [|c2 b]]; cbn [PyStr.startswith lacks]; intros H.
  - reflexivity.
  - apply andb_false_r.
  - apply andb_true_iff in H. destruct H as [_ H].
    apply andb_true_iff in H. destruct H as [H _].
    apply negb_true_iff in H. rewrite Ascii.eqb_sym in H.
    rewrite H. apply andb_false_r.
Qed.

Lemma strip_markers_underscore_hash (a b : string) :
  lacks "#" a = true -> lacks "#" b = true -> lacks "-" b = true ->
  strip_markers (a ++ "_#" ++ b) = a ++ "_#" ++ b.
Proof.
  intros Ha Hb Hdash.
  assert (Hpass : forall d,
             PyStr.remove (String "#" (String d "-")) (a ++ "_#" ++ b)
             = a ++ "_#" ++ b).
  { intros d. rewrite remove_passes by exact Ha. f_equal.
    unfold PyStr.remove.
    change ("_#" ++ b) with (String "_" (String "#" b)).
    cbn [PyStr.remove_from].
    replace (PyStr.startswith (String "_" (String "#" b))
                              (String "#" (String d "-")))
      with false by reflexivity.
    replace (PyStr.startswith (String "#" b) (String "#" (String d "-")))
      with false
      by (change (PyStr.startswith (String "#" b)
                                   (String "#" (String d "-")))
            with (Ascii.eqb "#" "#"
                  && PyStr.startswith b (String d "-"));
          rewrite startswith_digit_dash by exact Hdash;
          now rewrite andb_false_r).
    do 2 f_equal.
    now apply (remove_lacks "#" (String "#" (String d "-")) b). }
  unfold strip_markers. now rewrite !Hpass.
Qed.

Lemma sanitize_key_passes (original : string) :
  sanitize_key original
  = PyStr.remove "_#" (strip_markers (strip_extensions original)).
Proof. reflexivity. Qed.

(** C4, as stated, fails.  On the specification's own example the key is
    [Fast_whoosh_sound_v2]: removing ["#1-"] leaves the underscore before
    it and takes the dash after it.  And a marker with a digit other than
    1 to 4 is not removed. *)
Lemma sanitize_key_example_differs :
  sanitize_key "Fast_whoosh_sound_#1-v2.wav" = "Fast_whoosh_sound_v2"
  /\ sanitize_key "Fast_whoosh_sound_#1-v2.wav" <> "Fast_whoosh_sound-v2"
  /\ sanitize_key "clip_take#5-b.wav" = "clip_take#5-b".
Proof.
  repeat split; try reflexivity.
  vm_compute. discriminate.
Qed.

Lemma append_length (a b : string) :
  String.length (a ++ b) = (String.length a + String.length b)%nat.
Proof. induction a as [|c a IH]; simpl; [reflexivity | now rewrite IH]. Qed.

(** A pass is what [replace(old, '')] computes, for a non-empty [old]. *)
Lemma pass_complete (h : ascii) (t : string) :
  forall (n : nat) (s : string),
    (String.length s <= n)%nat ->
    Pass (String h t) s (PyStr.remove (String h t) s).
Proof.
  induction n as [|n IH]; intros [|c s] Hn;
    try (exact (Pass_end _)); [simpl in Hn; lia|].
  destruct (PyStr.startswith (String c s) (String h t)) eqn:E.
  - apply startswith_spec in E. destruct E as [rest E]. rewrite E.
    rewrite remove_at_head. apply Pass_drop, IH.
    apply (f_equal String.length) in E.
    rewrite append_length in E. simpl in E, Hn. lia.
  - unfold PyStr.remove. cbn [PyStr.remove_from]. rewrite E.
    apply Pass_keep.
    + intros rest Hrest. rewrite (proj2 (startswith_spec _ _)) in E
        by (now exists rest). discriminate E.
    + apply IH. simpl in Hn. lia.
Qed.

Lemma pass_sound (h : ascii) (t s r : string) :
  Pass (String h t) s r -> r = PyStr.remove (String h t) s.
Proof.
  induction 1 as [|rest r _ IH|c s r Hhead _ IH].
  - reflexivity.
  - now rewrite remove_at_head.
  - unfold PyStr.remove. cbn [PyStr.remove_from].
    destruct (PyStr.startswith (String c s) (String h t)) eqn:E.
    + apply startswith_spec in E. destruct E as [rest E].
      now destruct (Hhead rest).
    + now rewrite IH.
Qed.

(** The marker passes leave a marker with another digit where it is. *)
Lemma strip_markers_other_digit (a b : string) (d : ascii) :
  lacks "#" a = true -> lacks "#" b = true -> In d other_digits ->
  strip_markers (a ++ String "#" (String d ("-" ++ b)))
  = a ++ String "#" (String d ("-" ++ b)).
Proof.
  intros Ha Hb Hd.
  assert (Hb' : forall k, PyStr.remove (String "#" (String k "-")) b = b).
  { intros k. now apply (remove_lacks "#"). }
  assert (Hpass : forall k,
             In k ["1"; "2"; "3"; "4"]%char ->
             PyStr.remove (String "#" (String k "-"))
                          (a ++ String "#" (String d ("-" ++ b)))
             = a ++ String "#" (String d ("-" ++ b))).
  { intros k Hk. rewrite remove_passes by exact Ha. f_equal.
    unfold PyStr.remove. fold (PyStr.remove (String "#" (String k "-")) b).
    specialize (Hb' k). unfold PyStr.remove in Hb'.
    simpl in Hd, Hk.
    destruct Hd as [<- | [<- | [<- | [<- | [<- | [<- | []]]]]]];
      destruct Hk as [<- | [<- | [<- | [<- | []]]]];
      cbn [PyStr.remove_from PyStr.startswith Ascii.eqb Bool.eqb andb append];
      now rewrite Hb'. }
  unfold strip_markers.
  rewrite (Hpass "1"%char), (Hpass "2"%char), (Hpass "3"%char),
    (Hpass "4"%char); simpl; tauto.
Qed.

(** C4, amended.  The key is what seven passes leave of the original name,
    each pass one scan from the left that drops every occurrence it meets
    (at the end of the name or inside it, once or many times), each on the
    outcome of the one before, in this order: [".wav"], [".ogg"], ["#1-"],
    ["#2-"], ["#3-"], ["#4-"], ["_#"]; the seven passes determine the key.
    Nothing else is removed: a name in which none of the seven occurs is
    its own key, and a marker with another digit stays.  So
    [Fast_whoosh_sound_#1-v2.wav] gives [Fast_whoosh_sound_v2];
    [door.wav_slam.wav.ogg] gives [door_slam]; [x.w.oggav] gives [x.wav],
    the pass for [".wav"] being over when the one for [".ogg"] brings the
    four characters together.  And, for stretches [a], [b] free of dots and
    hashes: a name [a.wav] or [a.ogg] gives [a]; a marker [#1-] to [#4-]
    between [a] and [b] is removed; an ["_#"] between them is removed when
    no dash follows it in [b]. *)
Theorem sanitize_key_spec :
  (forall original key,
      Passes patterns original key <-> key = sanitize_key original)
  /\ (forall original,
         Forall (fun old => ~ occurs_in old original) patterns ->
         sanitize_key original = original)
  /\ (forall a b d ext,
         plain a = true -> lacks "_" a = true -> plain b = true ->
         In d other_digits -> In ext extensions ->
         sanitize_key (a ++ String "#" (String d ("-" ++ b)) ++ ext)
         = a ++ String "#" (String d ("-" ++ b)))
  /\ sanitize_key "Fast_whoosh_sound_#1-v2.wav" = "Fast_whoosh_sound_v2"
  /\ sanitize_key "door.wav_slam.wav.ogg" = "door_slam"
  /\ sanitize_key "x.w.oggav" = "x.wav"
  /\ (forall a ext,
         plain a = true -> In ext extensions ->
         sanitize_key (a ++ ext) = a)
  /\ (forall a m b ext,
         plain a = true -> plain b = true ->
         In m markers -> In ext extensions ->
         sanitize_key (a ++ m ++ b ++ ext) = a ++ b)
  /\ (forall a b ext,
         plain a = true -> plain b = true -> lacks "-" b = true ->
         In ext extensions ->
         sanitize_key (a ++ "_#" ++ b ++ ext) = a ++ b).
Proof.
  split; [|split; [|split; [|split; [|split; [|split; [|split; [|split]]]]]]];
    try reflexivity.
  - intros original key. unfold patterns. cbn [Passes]. split.
    + intros (s1 & H1 & s2 & H2 & s3 & H3 & s4 & H4 & s5 & H5 & s6 & H6
              & s7 & H7 & ->).
      apply pass_sound in H1, H2, H3, H4, H5, H6, H7. subst. reflexivity.
    + intros ->. unfold sanitize_key.
      repeat (eexists; split; [eapply pass_complete; apply Nat.le_refl|]).
      reflexivity.
  - intros original Hnone. unfold patterns in Hnone.
    assert (Habsent : forall old,
               In old [".wav"; ".ogg"; "#1-"; "#2-"; "#3-"; "#4-"; "_#"] ->
               PyStr.remove old original = original).
    { intros old Hold. apply remove_absent.
      destruct (PyStr.contains original old) eqn:E; [|reflexivity].
      apply contains_spec in E. rewrite Forall_forall in Hnone.
      now destruct (Hnone old Hold). }
    unfold sanitize_key.
    rewrite (Habsent ".wav"), (Habsent ".ogg"), (Habsent "#1-"),
      (Habsent "#2-"), (Habsent "#3-"), (Habsent "#4-"), (Habsent "_#");
      simpl; tauto.
  - intros a b d ext Ha Hu Hb Hd Hext.
    apply andb_true_iff in Ha. destruct Ha as [Had Hah].
    apply andb_true_iff in Hb. destruct Hb as [Hbd Hbh].
    assert (Hdd : lacks "." (String "#" (String d ("-" ++ b))) = true).
    { simpl in Hd.
      destruct Hd as [<- | [<- | [<- | [<- | [<- | [<- | []]]]]]];
        cbn [lacks append Ascii.eqb Bool.eqb negb andb]; exact Hbd. }
    rewrite sanitize_key_passes, <- append_assoc.
    rewrite strip_extensions_suffix
      by (trivial; now rewrite lacks_app, Had, Hdd).
    rewrite strip_markers_other_digit by trivial.
    rewrite (remove_passes "_" "#" a) by exact Hu. f_equal.
    assert (Hb' : PyStr.remove "_#" b = b) by now apply (remove_lacks "#").
    unfold PyStr.remove in *. simpl in Hd.
    destruct Hd as [<- | [<- | [<- | [<- | [<- | [<- | []]]]]]];
      cbn [PyStr.remove_from PyStr.startswith Ascii.eqb Bool.eqb andb append];
      now rewrite Hb'.
  - intros a ext Ha Hext. apply andb_true_iff in Ha. destruct Ha as [Hd Hh].
    rewrite sanitize_key_passes, strip_extensions_suffix by trivial.
    rewrite strip_markers_plain by exact Hh.
    now apply (remove_lacks "#" "_#" a).
  - intros a m b ext Ha Hb Hm Hext.
    apply andb_true_iff in Ha. destruct Ha as [Had Hah].
    apply andb_true_iff in Hb. destruct Hb as [Hbd Hbh].
    assert (Hmd : lacks "." m = true).
    { destruct Hm as [<- | [<- | [<- | [<- | []]]]]; reflexivity. }
    rewrite sanitize_key_passes.
    replace (a ++ m ++ b ++ ext) with ((a ++ m ++ b) ++ ext)
      by now rewrite !append_assoc.
    rewrite strip_extensions_suffix
      by (trivial; now rewrite !lacks_app, Had, Hmd, Hbd).
    rewrite strip_markers_marker by trivial.
    apply (remove_lacks "#" "_#"); [|reflexivity].
    now rewrite lacks_app, Hah, Hbh.
  - intros a b ext Ha Hb Hdash Hext.
    apply andb_true_iff in Ha. destruct Ha as [Had Hah].
    apply andb_true_iff in Hb. destruct Hb as [Hbd Hbh].
    rewrite sanitize_key_passes.
    replace (a ++ "_#" ++ b ++ ext) with ((a ++ "_#" ++ b) ++ ext)
      by now rewrite !append_assoc.
    rewrite strip_extensions_suffix
      by (trivial; now rewrite !lacks_app, Had, Hbd).
    rewrite strip_markers_underscore_hash by trivial.
    rewrite remove_underscore_hash_passes by (trivial; reflexivity).
    rewrite remove_at_head. f_equal.
    now apply (remove_lacks "#" "_#" b).
Qed.

End Sanitiser.

(** ** The sprite builder *)

Section SpriteBuilder.

Local Open Scope float_scope.

Lemma run_store (files : list (string * option AssetInfo))
      (map : list (string * SpriteEntry)) (cursor : float) :
  Sprite.run files (map, cursor)
  = (store map (timeline cursor files), cursor_after cursor files).
Proof.
  unfold Sprite.run, store. revert map cursor.
  induction files as [|[filepath [info|]] rest IH]; intros map cursor;
    simpl; [reflexivity | | apply IH].
  destruct (PyFloat.positive (duration info)); simpl; apply IH.
Qed.

Lemma dict_set_fresh {V : Type} (d : list (string * V)) (key : string)
      (v : V) :
  ~ In key (List.map fst d) -> dict_set d key v = (d ++ [(key, v)])%list.
Proof.
  induction d as [|[k v0] d IH]; simpl; intros H; [reflexivity|].
  destruct (String.eqb k key) eqn:E.
  - apply String.eqb_eq in E. tauto.
  - rewrite IH; [reflexivity | tauto].
Qed.

Lemma dict_set_in {V : Type} (d : list (string * V)) (key : string) (v : V)
      (k : string) (x : V) :
  In (k, x) (dict_set d key v) -> (k, x) = (key, v) \/ In (k, x) d.
Proof.
  induction d as [|[k0 v0] d IH]; simpl.
  - intros [H | []]. now left.
  - destruct (String.eqb k0 key) eqn:E.
    + apply String.eqb_eq in E. subst k0.
      intros [H | H]; [left; congruence | right; now right].
    + intros [H | H]; [right; now left|].
      destruct (IH H) as [H' | H']; [now left | right; now right].
Qed.

Lemma store_fresh (entries map : list (string * SpriteEntry)) :
  NoDup (List.map fst (map ++ entries)%list) ->
  store map entries = (map ++ entries)%list.
Proof.
  unfold store. revert map.
  induction entries as [|[k e] entries IH]; intros map Hnd; simpl.
  - now rewrite app_nil_r.
  - rewrite dict_set_fresh.
    + rewrite IH; rewrite <- app_assoc; [reflexivity | exact Hnd].
    + rewrite map_app in Hnd. simpl in Hnd.
      apply NoDup_remove_2 in Hnd. intros Hin. apply Hnd.
      apply in_or_app. now left.
Qed.

Lemma timeline_nth (files : list (string * option AssetInfo)) :
  forall (cursor : float) (i : nat) (filepath : string) (info : AssetInfo),
    forallb (fun item => has_duration (snd item)) files = true ->
    nth_error files i = Some (filepath, Some info) ->
    nth_error (timeline cursor files) i
    = Some (PyPath.stem (PyPath.Path filepath),
            mkSprite (cursor_after cursor (firstn i files))
                     (cursor_after cursor (firstn i files) + duration info)
                     false).
Proof.
  induction files as [|[fp [inf|]] rest IH]; intros cursor i filepath info Hall Hi.
  - destruct i; discriminate.
  - simpl in Hall. apply andb_true_iff in Hall. destruct Hall as [Hpos Hall].
    simpl. rewrite Hpos. destruct i as [|i]; simpl.
    + injection Hi as -> ->. reflexivity.
    + rewrite Hpos. now apply IH.
  - discriminate.
Qed.

(** C2, as stated, fails in two ways.  Two assets with the same stem share
    one key of the map, so the later one replaces the entry of the earlier
    one: [x.ogg] (1 s) and [x.wav] (2 s) leave the single entry
    [1.1, 3.1), and nothing spans [0, 1).  And the cursor is a running
    binary64 sum, not the closed form: after 0.2 s and 0.3 s the third
    entry starts at 0.7000000000000001, while [sum + 0.1 * 2] is 0.7. *)
Lemma sprite_closed_form_fails :
  (exists e,
      spritemap (create_audio_sprite_manifest
                   [ ("audio/x.ogg", Some (mkInfo "x.ogg" 64 "vorbis" 44100 1 96 1));
                     ("audio/x.wav", Some (mkInfo "x.wav" 64 "pcm_s16le" 44100 1 705 2)) ])
      = [("x", e)]
      /\ PrimFloat.eqb (start e) 0 = false)
  /\ (exists e,
         nth_error
           (spritemap (create_audio_sprite_manifest
              [ ("audio/a.wav", Some (mkInfo "a.wav" 64 "pcm_s16le" 44100 1 705 0.2));
                ("audio/b.wav", Some (mkInfo "b.wav" 64 "pcm_s16le" 44100 1 705 0.3));
                ("audio/c.wav", Some (mkInfo "c.wav" 64 "pcm_s16le" 44100 1 705 1)) ]))
           2
         = Some ("c", e)
         /\ PrimFloat.eqb (start e) (PyFloat.sum [0.2; 0.3] + 0.1 * 2) = false).
Proof.
  split; eexists; split; vm_compute; reflexivity.
Qed.

(** The specification's scenario: durations 2.0, 3.5 and 1.0 give the
    entries [0, 2), [2.1, 5.6) and [5.7, 6.7). *)
Example sprite_scenario :
  spritemap (create_audio_sprite_manifest
    [ ("audio/a.wav", Some (mkInfo "a.wav" 64 "pcm_s16le" 44100 1 705 2));
      ("audio/b.wav", Some (mkInfo "b.wav" 64 "pcm_s16le" 44100 1 705 3.5));
      ("audio/c.wav", Some (mkInfo "c.wav" 64 "pcm_s16le" 44100 1 705 1)) ])
  = [ ("a", mkSprite 0 2 false);
      ("b", mkSprite 2.1 5.6 false);
      ("c", mkSprite 5.7 6.7 false) ].
Proof. vm_compute. reflexivity. Qed.

(** C2, amended.  The sprite map is the timeline (cursor from 0.0; an asset
    with a known, strictly positive duration [d] takes [cursor, cursor + d)
    and moves the cursor to [cursor + (d + 0.1)]; any other asset takes
    nothing and leaves the cursor) written into a dict keyed by the assets'
    stems, a later entry replacing an earlier one of the same stem.  When
    the stems are distinct the map is the timeline itself; when moreover
    all durations are positive, entry [i] of the map starts where the
    cursor stands after the first [i] assets and ends at that plus its
    duration, all sums being the binary64 ones the loop computes. *)
Theorem sprite_timeline (files : list (string * option AssetInfo)) :
  spritemap (create_audio_sprite_manifest files)
  = store [] (timeline 0 files)
  /\ (NoDup (List.map fst (timeline 0 files)) ->
      spritemap (create_audio_sprite_manifest files) = timeline 0 files
      /\ (forallb (fun item => has_duration (snd item)) files = true ->
          forall i filepath info,
            nth_error files i = Some (filepath, Some info) ->
            nth_error (spritemap (create_audio_sprite_manifest files)) i
            = Some (PyPath.stem (PyPath.Path filepath),
                    mkSprite (cursor_after 0 (firstn i files))
                             (cursor_after 0 (firstn i files)
                              + duration info)
                             false))).
Proof.
  unfold create_audio_sprite_manifest. rewrite run_store. simpl.
  split; [reflexivity|]. intros Hnd.
  rewrite store_fresh by exact Hnd. split; [reflexivity|].
  intros Hall i filepath info Hi. now apply timeline_nth.
Qed.

Lemma run_entries (all files : list (string * option AssetInfo)) :
  forall st : Sprite.state,
    incl files all ->
    (forall key e, In (key, e) (fst st) -> entry_of_asset all key e) ->
    forall key e,
      In (key, e) (fst (Sprite.run files st)) -> entry_of_asset all key e.
Proof.
  unfold Sprite.run.
  induction files as [|[filepath info] rest IH]; intros [map cursor] Hincl Hst;
    [exact Hst|].
  assert (Hrest : incl rest all) by (intros x Hx; apply Hincl; now right).
  assert (Hhere : In (filepath, info) all) by (apply Hincl; now left).
  cbn [fold_left]. apply IH; [exact Hrest|].
  unfold Sprite.step. destruct info as [info|]; [|exact Hst].
  destruct (PyFloat.positive (duration info)) eqn:Hpos; [|exact Hst].
  intros key e Hin. cbn [fst] in Hin.
  apply dict_set_in in Hin. destruct Hin as [Heq | Hin].
  - injection Heq as -> ->. split; [reflexivity|].
    exists filepath, info. repeat split; trivial.
  - apply Hst. exact Hin.
Qed.

(** C9, as stated, fails: the end of an entry is the rounded sum of its
    start and the duration, and taking the start away again need not give
    the duration back.  With durations 2.0 and 3.5 the second entry is
    [2.1, 5.6), and 5.6 - 2.1 is 3.4999999999999996, not 3.5. *)
Lemma sprite_length_not_exact :
  exists e,
    dict_get (spritemap (create_audio_sprite_manifest
      [ ("audio/a.wav", Some (mkInfo "a.wav" 64 "pcm_s16le" 44100 1 705 2));
        ("audio/b.wav", Some (mkInfo "b.wav" 64 "pcm_s16le" 44100 1 705 3.5)) ]))
      "b"
    = Some e
    /\ e = mkSprite 2.1 5.6 false
    /\ PrimFloat.eqb (end' e - start e) 3.5 = false
    /\ PrimFloat.ltb (end' e - start e) 3.5 = true.
Proof.
  eexists. repeat split; vm_compute; reflexivity.
Qed.

(** C9, amended.  Every entry of the sprite map has its loop flag false,
    and its end is its start plus the probed duration of an asset of the
    input with that stem, the sum being the binary64 one: so no entry
    loops, and end minus start need not give the duration back exactly. *)
Theorem sprite_entry_shape (files : list (string * option AssetInfo))
        (key : string) (e : SpriteEntry) :
  In (key, e) (spritemap (create_audio_sprite_manifest files)) ->
  entry_of_asset files key e.
Proof.
  unfold create_audio_sprite_manifest. cbn [spritemap].
  apply (run_entries files files ([], 0)).
  - apply incl_refl.
  - intros ? ? [].
Qed.

Lemma sprite_entry_shape_witness :
  entry_of_asset
    [ ("audio/a.wav", Some (mkInfo "a.wav" 64 "pcm_s16le" 44100 1 705 2));
      ("audio/b.wav", Some (mkInfo "b.wav" 64 "pcm_s16le" 44100 1 705 3.5)) ]
    "b" (mkSprite 2.1 5.6 false).
Proof.
  apply sprite_entry_shape. vm_compute. right. left. reflexivity.
Defined.

End SpriteBuilder.

(** ** Paths *)

Section Paths.

Local Open Scope string_scope.

Lemma split_on_lacks (sep : ascii) (w : string) :
  lacks sep w = true -> PyStr.split_on sep w = [w].
Proof.
  induction w as [|c w IH]; [reflexivity|].
  cbn [lacks PyStr.split_on]. intros H.
  apply andb_true_iff in H. destruct H as [Hc Hw].
  apply negb_true_iff in Hc. rewrite Hc, IH by exact Hw. reflexivity.
Qed.

Lemma split_on_components (sep : ascii) (s : string) :
  Forall (fun w => lacks sep w = true) (PyStr.split_on sep s).
Proof.
  induction s as [|c s IH]; cbn [PyStr.split_on].
  - repeat constructor.
  - destruct (Ascii.eqb c sep) eqn:E.
    + constructor; [reflexivity | exact IH].
    + destruct (PyStr.split_on sep s) as [|w ws].
      * repeat constructor. cbn [lacks]. now rewrite E.
      * inversion IH as [|? ? Hw Hws]; subst. constructor; [|exact Hws].
        cbn [lacks]. now rewrite E, Hw.
Qed.

Lemma last_Forall {A : Type} (P : A -> Prop) (l : list A) (d : A) :
  Forall P l -> P d -> P (last l d).
Proof.
  induction l as [|x l IH]; intros Hl Hd; [exact Hd|].
  inversion Hl as [|? ? Hx Hl']; subst. destruct l as [|y l]; [exact Hx|].
  now apply IH.
Qed.

Lemma filter_Forall {A : Type} (P : A -> Prop) (f : A -> bool) (l : list A) :
  Forall P l -> Forall P (filter f l).
Proof.
  induction 1 as [|x l Hx Hl IH]; simpl; [constructor|].
  destruct (f x); [now constructor | exact IH].
Qed.

Lemma name_lacks_slash (s : string) :
  lacks "/" (PyPath.name (PyPath.Path s)) = true.
Proof.
  unfold PyPath.name, PyPath.Path. cbn [PyPath.parts].
  apply (last_Forall (fun w => lacks "/" w = true)); [|reflexivity].
  apply filter_Forall, split_on_components.
Qed.

Lemma take_lacks (c : ascii) (n : nat) (s : string) :
  lacks c s = true -> lacks c (PyStr.take n s) = true.
Proof.
  revert s; induction n as [|n IH]; intros [|x s]; try reflexivity.
  cbn [lacks PyStr.take]. intros H. apply andb_true_iff in H.
  destruct H as [-> H]. now rewrite IH.
Qed.

(** A stem never contains a slash. *)
Lemma stem_lacks_slash (s : string) :
  lacks "/" (PyPath.stem (PyPath.Path s)) = true.
Proof.
  unfold PyPath.stem. pose proof (name_lacks_slash s) as H.
  destruct (PyStr.rfind_dot _) as [i|]; [|exact H].
  destruct (_ && _)%bool; [now apply take_lacks | exact H].
Qed.

(** A string without a slash that is neither empty nor a dot parses to the
    relative path of that one component. *)
Lemma Path_component (w : string) :
  lacks "/" w = true -> PyPath.kept w = true ->
  PyPath.Path w = PyPath.mk false [w].
Proof.
  intros Hw Hk. unfold PyPath.Path.
  rewrite split_on_lacks by exact Hw. cbn [filter]. rewrite Hk. f_equal.
  destruct w as [|c w]; [reflexivity|].
  cbn [lacks] in Hw. apply andb_true_iff in Hw. destruct Hw as [Hc _].
  apply negb_true_iff in Hc. rewrite Ascii.eqb_sym in Hc.
  cbn [PyStr.startswith]. now rewrite Hc.
Qed.

Lemma ogg_name_kept (stem : string) : PyPath.kept (stem ++ ".ogg") = true.
Proof.
  unfold PyPath.kept. destruct stem as [|c stem]; [reflexivity|].
  change (String c stem ++ ".ogg") with (String c (stem ++ ".ogg")).
  cbn [String.eqb]. destruct stem as [|c' stem].
  - cbn [append String.eqb]. now destruct (Ascii.eqb c ".").
  - change (String c' stem ++ ".ogg") with (String c' (stem ++ ".ogg")).
    cbn [String.eqb]. now destruct (Ascii.eqb c ".").
Qed.

(** The output path of a file in a category of the registry, relative to
    the audio directory. *)
Lemma relative_output_path (filepath category : string) :
  In category registry_enumeration ->
  exists rel,
    PyPath.relative_to (output_path_of filepath category) audio_dir
    = Some rel
    /\ PyPath.str rel
       = "optimized/" ++ category ++ "/"
         ++ PyPath.stem (PyPath.Path filepath) ++ ".ogg".
Proof.
  intros Hcat. unfold output_path_of.
  set (stem := PyPath.stem (PyPath.Path filepath)).
  assert (Hname : PyPath.Path (stem ++ ".ogg")
                  = PyPath.mk false [stem ++ ".ogg"]).
  { apply Path_component; [|apply ogg_name_kept].
    rewrite lacks_app. unfold stem. now rewrite stem_lacks_slash. }
  exists (PyPath.mk false ["optimized"; category; stem ++ ".ogg"]).
  unfold PyPath.joinpath at 1. rewrite Hname. cbn [PyPath.anchored PyPath.parts].
  simpl in Hcat.
  destruct Hcat as [<- | [<- | [<- | [<- | [<- | [<- | [<- | []]]]]]]];
    split; reflexivity.
Qed.

End Paths.

(** ** The batch *)

Section BatchTurn.

Variable moment : Moment.

Local Open Scope string_scope.

Lemma classifier_in_registry (filename : string) :
  In (categorize_file filename) registry_enumeration.
Proof.
  change registry_enumeration with (List.map fst AUDIO_CATEGORIES).
  apply categorize_in_registry. simpl. tauto.
Qed.

Lemma classifier_profile_defined (filename : string) :
  exists profile,
    dict_get OPTIMIZATION_PROFILES (categorize_file filename) = Some profile.
Proof.
  pose proof (classifier_in_registry filename) as H. simpl in H.
  destruct H as [<- | [<- | [<- | [<- | [<- | [<- | [<- | []]]]]]]];
    eexists; reflexivity.
Qed.

(** One turn of the loop that does not raise either leaves the
    accumulators alone and reports a failure, or adds the file's entry and
    the size of its output, as measured in this turn. *)
Lemma optimize_one_inv (acc acc' : Acc) (item : string * AssetInfo)
      (out out' : list Line) :
  optimize_one moment acc item out = (Ok acc', out') ->
  (transcoded_at moment item = false
   /\ acc' = acc
   /\ out' = (out ++ failure_report_at moment item)%list)
  \/ (transcoded_at moment item = true
      /\ exists bytes l,
          getsize moment (output_of item) = Ok bytes
          /\ PrimFloat.eqb (size_kb (snd item)) 0 = false
          /\ acc' = mkAcc (total_size_after acc + PyFloat.kilobytes bytes)
                          (optimized_files acc ++ [entry_of item bytes])%list
          /\ out' = (out ++ l)%list).
Proof.
  destruct item as [filepath info].
  unfold transcoded_at, failure_report_at, encoder_result_at, entry_of,
    output_of, category_of. cbn [fst snd].
  destruct (classifier_profile_defined (file info)) as [profile Hp].
  destruct (relative_output_path filepath (categorize_file (file info))
              (classifier_in_registry (file info))) as [rel [Hrel Hstr]].
  unfold optimize_one. rewrite Hp, Hrel.
  remember (output_path_of filepath (categorize_file (file info))) as outp.
  unfold optimize_audio_file, try_except, bind, lift, print, ret.
  destruct (mkdir moment _) as [[]|e0]; cbv beta iota zeta;
    [|intros H; discriminate H].
  destruct (subprocess_run moment _) as [rc|e1]; cbv beta iota zeta.
  - destruct (Z.eqb rc 0); cbv beta iota zeta.
    + destruct (getsize moment _) as [bytes|e2]; cbv beta iota zeta;
        [|intros H; discriminate H].
      unfold PyFloat.truediv.
      destruct (PrimFloat.eqb (size_kb info) 0); cbv beta iota zeta;
        [intros H; discriminate H|].
      intros H. injection H as <- <-. right. split; [reflexivity|].
      exists bytes. eexists. rewrite Hstr. repeat split.
      rewrite <- !app_assoc. reflexivity.
    + intros H. injection H as <- <-. left. repeat split.
      now rewrite <- !app_assoc.
  - intros H. injection H as <- <-. left. repeat split.
    now rewrite <- !app_assoc.
Qed.

Lemma optimize_one_runs (acc : Acc) (item : string * AssetInfo)
      (out : list Line) :
  (forall path, mkdir moment path = Ok tt) ->
  (transcoded_at moment item = true ->
   (exists bytes, getsize moment (output_of item) = Ok bytes)
   /\ PrimFloat.eqb (size_kb (snd item)) 0 = false) ->
  exists acc' out', optimize_one moment acc item out = (Ok acc', out').
Proof.
  intros Hmkdir Hsize. destruct item as [filepath info].
  unfold transcoded_at, encoder_result_at, output_of, category_of in Hsize.
  cbn [fst snd] in Hsize.
  destruct (classifier_profile_defined (file info)) as [profile Hp].
  destruct (relative_output_path filepath (categorize_file (file info))
              (classifier_in_registry (file info))) as [rel [Hrel _]].
  unfold optimize_one. rewrite Hp, Hrel, Hmkdir. rewrite Hp in Hsize.
  unfold optimize_audio_file, try_except, bind, lift, print, ret.
  cbv beta iota zeta.
  destruct (subprocess_run moment _) as [rc|e1]; cbv beta iota zeta;
    [|eauto].
  destruct (Z.eqb rc 0); cbv beta iota zeta; [|eauto].
  destruct (Hsize eq_refl) as [[bytes ->] Hnz].
  unfold PyFloat.truediv. rewrite Hnz. cbv beta iota zeta. eauto.
Qed.

End BatchTurn.

Section Batch.

Variable world : World.

Local Open Scope string_scope.

Lemma optimize_all_inv (results : list (string * AssetInfo)) :
  forall (turn : nat) (acc acc' : Acc) (out out' : list Line),
    optimize_all world turn results acc out = (Ok acc', out') ->
    exists entries l,
      optimized_files acc' = (optimized_files acc ++ entries)%list
      /\ total_size_after acc'
         = fold_left PrimFloat.add (List.map size_after entries)
                     (total_size_after acc)
      /\ entries_of world (turns_from turn results) entries
      /\ out' = (out ++ l)%list
      /\ failures_reported world (turns_from turn results) l.
Proof.
  unfold entries_of, failures_reported.
  induction results as [|item rest IH]; intros turn acc acc' out out' H.
  - cbn in H. injection H as <- <-. exists [], [].
    rewrite !app_nil_r. repeat split; [constructor | intros ? []].
  - cbn [optimize_all] in H. unfold bind in H.
    destruct (optimize_one (world turn) acc item out) as [[acc1|e] out1]
      eqn:E; [|discriminate H].
    apply optimize_one_inv in E. apply IH in H.
    destruct H as (entries & l & Hfiles & Htotal & Hentries & -> & Hlog).
    cbn [turns_from filter].
    change (transcoded world (turn, item))
      with (transcoded_at (world turn) item).
    destruct E as [(Hfail & -> & ->)
                  | (Hok & bytes & l0 & Hsize & _ & -> & ->)].
    + exists entries, (failure_report world (turn, item) ++ l)%list.
      rewrite Hfail, <- app_assoc.
      repeat split; trivial.
      intros t [<- | Hin] Hf.
      * exists [], l. reflexivity.
      * destruct (Hlog t Hin Hf) as (l1 & l2 & ->).
        exists (failure_report world (turn, item) ++ l1)%list, l2.
        now rewrite <- app_assoc.
    + exists (entry_of item bytes :: entries), (l0 ++ l)%list.
      cbn [optimized_files total_size_after] in Hfiles, Htotal.
      rewrite Hok, <- !app_assoc in *.
      repeat split; trivial.
      * constructor; [now exists bytes | exact Hentries].
      * intros t [<- | Hin] Hf;
          [unfold transcoded in Hf; cbn [fst snd] in Hf; congruence|].
        destruct (Hlog t Hin Hf) as (l1 & l2 & ->).
        exists (l0 ++ l1)%list, l2. now rewrite <- app_assoc.
Qed.

Lemma optimize_all_runs (results : list (string * AssetInfo)) :
  (forall turn path, mkdir (world turn) path = Ok tt) ->
  forall turn : nat,
  Forall (fun t =>
            transcoded world t = true ->
            (exists bytes, measured world t = Ok bytes)
            /\ PrimFloat.eqb (size_kb (snd (snd t))) 0 = false)
         (turns_from turn results) ->
  forall (acc : Acc) (out : list Line),
  exists acc' out', optimize_all world turn results acc out = (Ok acc', out').
Proof.
  intros Hmkdir. induction results as [|item rest IH];
    intros turn Hall acc out.
  - exists acc, out. reflexivity.
  - cbn [turns_from] in Hall. inversion Hall as [|? ? Hitem Hrest]; subst.
    destruct (optimize_one_runs (world turn) acc item out (Hmkdir turn) Hitem)
      as (acc1 & out1 & E).
    cbn [optimize_all]. unfold bind. rewrite E. now apply IH.
Qed.

(** The loop meets the outside world of its own turns only. *)
Lemma optimize_all_ext (later : World)
      (results : list (string * AssetInfo)) :
  forall (turn : nat) (acc : Acc) (out : list Line),
    (forall i, (i < List.length results)%nat ->
               later (turn + i)%nat = world (turn + i)%nat) ->
    optimize_all later turn results acc out
    = optimize_all world turn results acc out.
Proof.
  induction results as [|item rest IH]; intros turn acc out Hsame;
    [reflexivity|].
  cbn [optimize_all]. unfold bind.
  pose proof (Hsame 0%nat) as H0. rewrite Nat.add_0_r in H0.
  rewrite H0 by (simpl; lia).
  destruct (optimize_one (world turn) acc item out) as [[acc1|e] out1];
    [|reflexivity].
  apply IH. intros i Hi.
  replace (S turn + i)%nat with (turn + S i)%nat by lia.
  apply Hsame. simpl. lia.
Qed.

(** [main] returns a manifest exactly when the loop runs through and the
    total size before is not zero; the manifest is then made of the two
    accumulators. *)
Lemma main_inv (results : list (string * AssetInfo)) (out out' : list Line)
      (manifest : Manifest) :
  main world results out = (Ok manifest, out') ->
  exists acc out1 l,
    optimize_all world 0 results (mkAcc 0 [])
                 ((out ++ [Optimizing_audio_files]) ++ [Rule])%list
    = (Ok acc, out1)
    /\ manifest = mkManifest "1.0" (optimized_files acc) AUDIO_CATEGORIES
                             (Z.of_nat (List.length (optimized_files acc)))
                             (total_size_after acc)
    /\ out' = (out1 ++ l)%list.
Proof.
  unfold main, bind, lift, print, ret. cbv beta iota zeta.
  destruct (optimize_all world 0 results _ _) as [[acc|e] out1];
    cbv beta iota zeta; [|intros H; discriminate H].
  unfold PyFloat.truediv.
  destruct (PrimFloat.eqb (total_size_before results) 0);
    cbv beta iota zeta; [intros H; discriminate H|].
  intros H. injection H as <- <-. exists acc, out1. eexists.
  repeat split. rewrite <- !app_assoc. reflexivity.
Qed.

Lemma main_runs (results : list (string * AssetInfo)) (out out1 : list Line)
      (acc : Acc) :
  optimize_all world 0 results (mkAcc 0 [])
               ((out ++ [Optimizing_audio_files]) ++ [Rule])%list
  = (Ok acc, out1) ->
  PrimFloat.eqb (total_size_before results) 0 = false ->
  exists manifest out', main world results out = (Ok manifest, out').
Proof.
  intros Hloop Hnz. unfold main, bind, lift, print, ret.
  cbv beta iota zeta. rewrite Hloop. cbv beta iota zeta.
  unfold PyFloat.truediv. rewrite Hnz. cbv beta iota zeta. eauto.
Qed.

(** A run meets the outside world of its own turns only. *)
Lemma main_ext (later : World) (results : list (string * AssetInfo))
      (out : list Line) :
  (forall turn, (turn < List.length results)%nat -> later turn = world turn) ->
  main later results out = main world results out.
Proof.
  intros Hsame. unfold main, bind, lift, print, ret. cbv beta iota zeta.
  rewrite (optimize_all_ext later results 0 (mkAcc 0 [])) by exact Hsame.
  reflexivity.
Qed.

End Batch.

(** ** The manifest *)

Lemma demo_run :
  main demo_world demo_results [] = (Ok demo_manifest, demo_out).
Proof. vm_compute. reflexivity. Qed.

Lemma shared_run :
  main shared_world shared_results [] = (Ok shared_manifest, shared_out).
Proof. vm_compute. reflexivity. Qed.

Lemma turns_from_files (results : list (string * AssetInfo)) (turn : nat) :
  List.map snd (turns_from turn results) = results.
Proof.
  revert turn; induction results as [|item rest IH]; intros turn;
    [reflexivity|].
  cbn [turns_from List.map snd]. now rewrite IH.
Qed.

Lemma entries_sizes (world : World) (ts : list Turn)
      (entries : list FileEntry) :
  entries_of world ts entries ->
  Forall2 (fun t e =>
             exists bytes,
               measured world t = Ok bytes
               /\ size_after e = PyFloat.kilobytes bytes)
          (filter (transcoded world) ts) entries.
Proof.
  unfold entries_of.
  induction 1 as [|t e ts' es [bytes [Hsize ->]] _ IH];
    constructor; [|exact IH].
  now exists bytes.
Qed.

(** C3. In the manifest of any run that reaches it, [total_size_kb] is the
    sum of [size_after] over the entries of [files], added up in their
    order, and [total_files] is the number of those entries, one for each
    turn the encoder succeeded in.  The size an entry carries is the one
    measured in its own turn, right after its encoding, whatever the same
    path measures in another turn; and what the outside world would answer
    once the loop is over has no part in the manifest: both totals come
    from the accumulated entries, not from looking at the files again. *)
Theorem manifest_totals (world : World)
        (results : list (string * AssetInfo)) (out out' : list Line)
        (manifest : Manifest) :
  main world results out = (Ok manifest, out') ->
  total_size_kb manifest = PyFloat.sum (List.map size_after (files manifest))
  /\ total_files manifest = Z.of_nat (List.length (files manifest))
  /\ List.length (files manifest)
     = List.length (filter (transcoded world) (turns results))
  /\ Forall2 (fun t e =>
                exists bytes,
                  measured world t = Ok bytes
                  /\ size_after e = PyFloat.kilobytes bytes)
             (filter (transcoded world) (turns results)) (files manifest)
  /\ forall later : World,
      (forall turn, (turn < List.length results)%nat ->
                    later turn = world turn) ->
      main later results out = (Ok manifest, out').
Proof.
  intros H.
  assert (Hlater : forall later : World,
             (forall turn, (turn < List.length results)%nat ->
                           later turn = world turn) ->
             main later results out = (Ok manifest, out'))
    by (intros later Hsame; rewrite <- H; now apply main_ext).
  apply main_inv in H.
  destruct H as (acc & out1 & l & Hloop & Hm & _).
  apply optimize_all_inv in Hloop.
  destruct Hloop as (entries & l' & Hfiles & Htotal & Hentries & _).
  fold (turns results) in Hentries.
  cbn [optimized_files total_size_after app] in Hfiles, Htotal.
  split; [|split; [|split; [|split; [|exact Hlater]]]];
    rewrite Hm; cbn [files total_size_kb total_files]; rewrite Hfiles.
  - rewrite Htotal. reflexivity.
  - reflexivity.
  - symmetry. exact (Forall2_length Hentries).
  - now apply entries_sizes.
Qed.

Lemma manifest_totals_witness :
  main shared_world shared_results [] = (Ok shared_manifest, shared_out)
  /\ List.map size_after (files shared_manifest) = [1%float; 3%float]
  /\ total_size_kb shared_manifest = 4%float
  /\ total_size_kb shared_manifest
     = PyFloat.sum (List.map size_after (files shared_manifest))
  /\ total_files shared_manifest
     = Z.of_nat (List.length (files shared_manifest))
  /\ List.length (files shared_manifest)
     = List.length (filter (transcoded shared_world) (turns shared_results))
  /\ Forall2 (fun t e =>
                exists bytes,
                  measured shared_world t = Ok bytes
                  /\ size_after e = PyFloat.kilobytes bytes)
             (filter (transcoded shared_world) (turns shared_results))
             (files shared_manifest)
  /\ forall later : World,
      (forall turn, (turn < List.length shared_results)%nat ->
                    later turn = shared_world turn) ->
      main later shared_results [] = (Ok shared_manifest, shared_out).
Proof.
  split; [exact shared_run|].
  split; [reflexivity|]. split; [reflexivity|].
  apply (manifest_totals shared_world shared_results [] shared_out).
  exact shared_run.
Defined.

(** In that run the two entries share one output, measured 1.0 KB in the
    turn of the first and 3.0 KB in the turn of the second: the total is
    their sum, 4.0, where measuring the entries' paths again after the run
    would find the last size twice. *)
Lemma shared_total_is_accumulated :
  List.map optimized (files shared_manifest)
  = ["optimized/combat/shotgun_fire.ogg";
     "optimized/combat/shotgun_fire.ogg"]
  /\ List.map (measured shared_world)
              (filter (transcoded shared_world) (turns shared_results))
     = [Ok 1024%Z; Ok 3072%Z]
  /\ total_size_kb shared_manifest
     = (PyFloat.kilobytes 1024 + PyFloat.kilobytes 3072)%float
  /\ rescanned (shared_world 3) shared_manifest = [Ok 3072%Z; Ok 3072%Z].
Proof. vm_compute. repeat split. Qed.

Lemma entries_placed (world : World) (ts : list Turn)
      (entries : list FileEntry) :
  entries_of world ts entries ->
  Forall2 placed (List.map snd (filter (transcoded world) ts)) entries.
Proof.
  unfold entries_of. induction 1 as [|t e ts' es [bytes [_ ->]] _ IH];
    constructor; [|exact IH].
  repeat split.
Qed.

(** C10. The entries of the manifest are, in order, those of the files the
    encoder succeeded for, and the optimized path of each is
    [optimized/<category>/<stem>.ogg] with the classifier's category of the
    file and the stem of its path: the extension is the literal [.ogg];
    the profile's format field is read neither for the path nor for the
    encoder's command line. *)
Theorem manifest_optimized_path (world : World)
        (results : list (string * AssetInfo)) (out out' : list Line)
        (manifest : Manifest) :
  main world results out = (Ok manifest, out') ->
  Forall2 placed
          (List.map snd (filter (transcoded world) (turns results)))
          (files manifest)
  /\ forall input_path output_path profile fmt,
      ffmpeg_cmd input_path output_path
                 (mkProfile fmt (bitrate profile) (sample_rate profile)
                            (channels profile) (normalize profile)
                            (compression profile) (quality profile))
      = ffmpeg_cmd input_path output_path profile.
Proof.
  intros H. split; [|reflexivity]. apply main_inv in H.
  destruct H as (acc & out1 & l & Hloop & -> & _).
  apply optimize_all_inv in Hloop.
  destruct Hloop as (entries & l' & Hfiles & _ & Hentries & _).
  cbn [files optimized_files] in *. rewrite Hfiles.
  now apply entries_placed.
Qed.

Lemma manifest_optimized_path_witness :
  Forall2 placed
          (List.map snd (filter (transcoded demo_world) (turns demo_results)))
          (files demo_manifest)
  /\ forall input_path output_path profile fmt,
      ffmpeg_cmd input_path output_path
                 (mkProfile fmt (bitrate profile) (sample_rate profile)
                            (channels profile) (normalize profile)
                            (compression profile) (quality profile))
      = ffmpeg_cmd input_path output_path profile.
Proof.
  apply (manifest_optimized_path demo_world demo_results [] demo_out).
  vm_compute. reflexivity.
Defined.

(** ** Failures of the encoder *)

Lemma in_map_nodup {A B : Type} (f : A -> B) (l : list A) (x y : A) :
  NoDup (List.map f l) -> In x l -> In y l -> f x = f y -> x = y.
Proof.
  induction l as [|a l IH]; intros Hnd Hx Hy Hf; [destruct Hx|].
  simpl in Hnd. inversion Hnd as [|? ? Ha Hnd']; subst.
  destruct Hx as [<- | Hx], Hy as [<- | Hy]; trivial.
  - exfalso. apply Ha. rewrite Hf. now apply in_map.
  - exfalso. apply Ha. rewrite <- Hf. now apply in_map.
  - now apply IH.
Qed.

Lemma entries_originals (world : World) (ts : list Turn)
      (entries : list FileEntry) :
  entries_of world ts entries ->
  List.map original entries
  = List.map name_of (filter (transcoded world) ts).
Proof.
  unfold entries_of. induction 1 as [|t e ts' es [bytes [_ ->]] _ IH];
    [reflexivity|].
  simpl. now rewrite IH.
Qed.

Lemma failure_report_ends (world : World) (t : Turn) :
  last (failure_report world t) Rule = FAIL_line.
Proof.
  unfold failure_report, failure_report_at.
  destruct (classifier_profile_defined (file (snd (snd t))))
    as [profile Hp].
  unfold category_of. rewrite Hp.
  destruct (encoder_result_at (world (fst t)) (snd t)); reflexivity.
Qed.

Lemma turns_names (results : list (string * AssetInfo)) :
  List.map name_of (turns results)
  = List.map (fun item => file (snd item)) results.
Proof.
  unfold turns. rewrite <- (turns_from_files results 0) at 2.
  now rewrite map_map.
Qed.

(** C8. Take any run in which the directories can be made, the output of
    every successful encoding can be measured right after it, and no
    analysed size is zero where it divides.  Then, whatever files the
    encoder fails for, the run ends with a manifest: each failed file is
    absent from [files] and from the totals, its failure is on the
    console, and every other file has its entry, with the size its output
    had in its own turn. *)
Theorem encoder_failures_isolated (world : World)
        (results : list (string * AssetInfo)) (out : list Line) :
  (forall turn path, mkdir (world turn) path = Ok tt) ->
  Forall (fun t =>
            transcoded world t = true ->
            (exists bytes, measured world t = Ok bytes)
            /\ PrimFloat.eqb (size_kb (snd (snd t))) 0 = false)
         (turns results) ->
  PrimFloat.eqb (total_size_before results) 0 = false ->
  isolates_failures world results out.
Proof.
  intros Hmkdir Hsizes Hbefore. unfold isolates_failures.
  destruct (optimize_all_runs world results Hmkdir 0%nat Hsizes (mkAcc 0 [])
              ((out ++ [Optimizing_audio_files]) ++ [Rule]))
    as (acc & out1 & Hloop).
  destruct (main_runs world results out out1 acc Hloop Hbefore)
    as (manifest & out' & Hmain).
  exists manifest, out'. split; [exact Hmain|].
  apply main_inv in Hmain.
  destruct Hmain as (acc0 & out0 & l & Hloop0 & -> & ->).
  rewrite Hloop in Hloop0. injection Hloop0 as <- <-.
  apply optimize_all_inv in Hloop.
  destruct Hloop as (entries & l' & Hfiles & Htotal & Hentries & -> & Hlog).
  fold (turns results) in Hentries, Hlog.
  cbn [files total_size_kb total_files optimized_files total_size_after]
    in *.
  rewrite Hfiles, Htotal in *. cbn [app].
  pose proof (entries_originals world (turns results) entries Hentries)
    as Horig.
  split; [exact Hentries|]. split; [exact Horig|].
  split; [rewrite <- (length_map original), Horig, length_map; reflexivity|].
  split; [reflexivity|].
  intros t Hin Hfail. split.
  - destruct (Hlog t Hin Hfail) as (l1 & l2 & ->).
    exists (((out ++ [Optimizing_audio_files]) ++ [Rule]) ++ l1), (l2 ++ l).
    split; [|apply failure_report_ends].
    now rewrite <- !app_assoc.
  - intros Hnd Hname. rewrite Horig in Hname.
    apply in_map_iff in Hname. destruct Hname as (t' & Hname & Hin').
    apply filter_In in Hin'. destruct Hin' as [Hin' Hok].
    rewrite <- turns_names in Hnd.
    assert (t' = t)
      by (apply (in_map_nodup _ _ _ _ Hnd Hin' Hin Hname)).
    congruence.
Qed.

Lemma encoder_failures_isolated_witness :
  isolates_failures shared_world shared_results [].
Proof.
  apply encoder_failures_isolated.
  - reflexivity.
  - repeat constructor; vm_compute; try discriminate; eauto.
  - vm_compute. reflexivity.
Defined.

(** * Further properties of the code *)

(** ** Dicts in insertion order *)

Lemma dict_get_set_same {V : Type} (d : list (string * V)) (key : string)
      (v : V) :
  dict_get (dict_set d key v) key = Some v.
Proof.
  induction d as [|[k v0] d IH]; simpl.
  - now rewrite String.eqb_refl.
  - destruct (String.eqb k key) eqn:E; simpl; rewrite E; [reflexivity | exact IH].
Qed.

Lemma dict_get_set_other {V : Type} (d : list (string * V))
      (key key' : string) (v : V) :
  key' <> key -> dict_get (dict_set d key v) key' = dict_get d key'.
Proof.
  intros Hne. induction d as [|[k v0] d IH]; simpl.
  - destruct (String.eqb key key') eqn:E; [|reflexivity].
    apply String.eqb_eq in E. congruence.
  - destruct (String.eqb k key) eqn:E; simpl.
    + apply String.eqb_eq in E. subst k.
      destruct (String.eqb key key') eqn:E'; [|reflexivity].
      apply String.eqb_eq in E'. congruence.
    + now rewrite IH.
Qed.

Lemma dict_set_keys {V : Type} (d : list (string * V)) (key : string)
      (v : V) :
  List.map fst (dict_set d key v)
  = if in_dec string_dec key (List.map fst d)
    then List.map fst d else (List.map fst d ++ [key])%list.
Proof.
  induction d as [|[k v0] d IH]; simpl; [reflexivity|].
  destruct (String.eqb k key) eqn:E.
  - apply String.eqb_eq in E. subst k. simpl.
    destruct (string_dec key key); [|congruence].
    reflexivity.
  - simpl. rewrite IH. apply String.eqb_neq in E.
    destruct (string_dec k key); [congruence|].
    destruct (in_dec string_dec key (List.map fst d)); reflexivity.
Qed.

Lemma dict_set_nodup {V : Type} (d : list (string * V)) (key : string)
      (v : V) :
  NoDup (List.map fst d) -> NoDup (List.map fst (dict_set d key v)).
Proof.
  intros Hnd. rewrite dict_set_keys.
  destruct (in_dec string_dec key (List.map fst d)) as [Hin | Hout];
    [exact Hnd|].
  apply NoDup_app; [exact Hnd | repeat constructor; intros [] | ].
  intros x Hx [<- | []]. contradiction.
Qed.

Lemma dict_set_length {V : Type} (d : list (string * V)) (key : string)
      (v : V) :
  (List.length (dict_set d key v) <= S (List.length d))%nat.
Proof.
  induction d as [|[k v0] d IH]; simpl; [lia|].
  destruct (String.eqb k key); simpl; lia.
Qed.

(** ** The sprite map as a dict *)

Lemma store_nodup (entries map : list (string * SpriteEntry)) :
  NoDup (List.map fst map) -> NoDup (List.map fst (store map entries)).
Proof.
  unfold store. revert map.
  induction entries as [|[k e] entries IH]; intros map Hnd; simpl;
    [exact Hnd|].
  apply IH. now apply dict_set_nodup.
Qed.

Lemma store_length (entries map : list (string * SpriteEntry)) :
  (List.length (store map entries)
   <= List.length map + List.length entries)%nat.
Proof.
  unfold store. revert map.
  induction entries as [|[k e] entries IH]; intros map; simpl; [lia|].
  specialize (IH (dict_set map k e)).
  pose proof (dict_set_length map k e). lia.
Qed.

Lemma timeline_length (files : list (string * option AssetInfo))
      (cursor : float) :
  List.length (timeline cursor files)
  = List.length (filter (fun item => has_duration (snd item)) files).
Proof.
  revert cursor. induction files as [|[filepath [info|]] rest IH];
    intros cursor; simpl; [reflexivity | | apply IH].
  destruct (PyFloat.positive (duration info)); simpl; now rewrite IH.
Qed.

Lemma store_get (entries map : list (string * SpriteEntry)) (key : string) :
  dict_get (store map entries) key
  = match last_under key entries with
    | Some e => Some e
    | None => dict_get map key
    end.
Proof.
  unfold store. revert map.
  induction entries as [|[k e] entries IH]; intros map; simpl;
    [reflexivity|].
  rewrite IH. destruct (last_under key entries); [reflexivity|].
  destruct (String.eqb k key) eqn:E.
  - apply String.eqb_eq in E. subst k. apply dict_get_set_same.
  - apply dict_get_set_other. apply String.eqb_neq in E. congruence.
Qed.

Lemma last_under_in (entries : list (string * SpriteEntry)) (key : string)
      (e : SpriteEntry) :
  In (key, e) entries -> exists e', last_under key entries = Some e'.
Proof.
  induction entries as [|[k e0] entries IH]; intros Hin; [destruct Hin|].
  simpl. destruct (last_under key entries) as [e'|] eqn:E; [now exists e'|].
  destruct Hin as [Heq | Hin].
  - injection Heq as -> ->. rewrite String.eqb_refl. now exists e.
  - destruct (IH Hin) as [e' He']. discriminate He'.
Qed.

Lemma timeline_in (files : list (string * option AssetInfo)) :
  forall (cursor : float) (filepath : string) (info : AssetInfo),
    In (filepath, Some info) files ->
    PyFloat.positive (duration info) = true ->
    exists e, In (PyPath.stem (PyPath.Path filepath), e)
                 (timeline cursor files).
Proof.
  induction files as [|[fp [inf|]] rest IH]; intros cursor filepath info Hin Hpos.
  - destruct Hin.
  - simpl. destruct Hin as [Heq | Hin].
    + injection Heq as -> ->. rewrite Hpos. eexists. left. reflexivity.
    + destruct (PyFloat.positive (duration inf)).
      * destruct (IH (cursor + (duration inf + 0.1))%float filepath info Hin Hpos)
          as [e He]. exists e. now right.
      * exact (IH cursor filepath info Hin Hpos).
  - simpl. destruct Hin as [Heq | Hin]; [discriminate Heq|].
    exact (IH cursor filepath info Hin Hpos).
Qed.

Lemma create_store (files : list (string * option AssetInfo)) :
  create_audio_sprite_manifest files
  = mkSpriteManifest [] (store [] (timeline 0 files)).
Proof.
  unfold create_audio_sprite_manifest. now rewrite run_store.
Qed.

(** X1. The sprite map never holds two entries under one key, and never more
    entries than there are assets with a known, positive duration. *)
Theorem spritemap_keys_distinct (files : list (string * option AssetInfo)) :
  NoDup (List.map fst (spritemap (create_audio_sprite_manifest files)))
  /\ (List.length (spritemap (create_audio_sprite_manifest files))
      <= List.length (filter (fun item => has_duration (snd item)) files))%nat.
Proof.
  rewrite create_store. cbn [spritemap]. split.
  - apply store_nodup. constructor.
  - rewrite <- (timeline_length files 0).
    apply (store_length (timeline 0 files) []).
Qed.

(** X2. Looking a key up in the sprite map gives the entry of the last asset
    with that stem and a positive duration; in particular every such asset
    finds an entry under its stem (its own, or a later asset's). *)
Theorem spritemap_last_writer (files : list (string * option AssetInfo)) :
  (forall key,
      dict_get (spritemap (create_audio_sprite_manifest files)) key
      = last_under key (timeline 0 files))
  /\ (forall filepath info,
         In (filepath, Some info) files ->
         PyFloat.positive (duration info) = true ->
         exists e,
           dict_get (spritemap (create_audio_sprite_manifest files))
                    (PyPath.stem (PyPath.Path filepath))
           = Some e).
Proof.
  rewrite create_store. cbn [spritemap].
  assert (Hget : forall key,
             dict_get (store [] (timeline 0 files)) key
             = last_under key (timeline 0 files)).
  { intros key. rewrite store_get.
    now destruct (last_under key (timeline 0 files)). }
  split; [exact Hget|].
  intros filepath info Hin Hpos. rewrite Hget.
  destruct (timeline_in files 0 filepath info Hin Hpos) as [e He].
  now apply last_under_in with (e := e).
Qed.

Lemma timeline_filter (files : list (string * option AssetInfo))
      (cursor : float) :
  timeline cursor (filter (fun item => has_duration (snd item)) files)
  = timeline cursor files.
Proof.
  revert cursor. induction files as [|[filepath [info|]] rest IH];
    intros cursor; simpl; [reflexivity | | apply IH].
  destruct (PyFloat.positive (duration info)) eqn:E; simpl;
    [rewrite E; now rewrite IH | apply IH].
Qed.

(** X3. Assets without a usable duration (failed analysis, zero, negative or
    NaN) are as good as absent: dropping them from the input changes
    nothing in the manifest. *)
Theorem sprite_ignores_unusable (files : list (string * option AssetInfo)) :
  create_audio_sprite_manifest
    (filter (fun item => has_duration (snd item)) files)
  = create_audio_sprite_manifest files.
Proof.
  rewrite !create_store. now rewrite timeline_filter.
Qed.

(** ** The sanitiser never lengthens a name *)

Section SanitiserBounds.

Local Open Scope string_scope.

Lemma remove_from_length (old s : string) :
  forall skip,
    (String.length (PyStr.remove_from old s skip) <= String.length s)%nat.
Proof.
  induction s as [|c s IH]; intros skip; [reflexivity|].
  cbn [PyStr.remove_from String.length]. destruct skip as [|k].
  - destruct (PyStr.startswith (String c s) old).
    + specialize (IH (String.length old - 1)%nat). lia.
    + cbn [String.length]. specialize (IH 0%nat). lia.
  - specialize (IH k). lia.
Qed.

(** A pass that finds its pattern makes the string strictly shorter. *)
Lemma remove_shortens (old s : string) :
  old <> "" -> PyStr.contains s old = true ->
  (String.length (PyStr.remove old s) < String.length s)%nat.
Proof.
  intros Hold. unfold PyStr.remove. induction s as [|c s IH]; intros H.
  - destruct old; [congruence | discriminate H].
  - cbn [PyStr.contains] in H. cbn [PyStr.remove_from String.length].
    destruct (PyStr.startswith (String c s) old).
    + pose proof (remove_from_length old s (String.length old - 1)). lia.
    + cbn [String.length]. simpl in H. specialize (IH H). lia.
Qed.

(** A pass that keeps the length found nothing and changed nothing. *)
Lemma remove_same_length (old s : string) :
  old <> "" ->
  String.length (PyStr.remove old s) = String.length s ->
  PyStr.contains s old = false /\ PyStr.remove old s = s.
Proof.
  intros Hold Hlen. destruct (PyStr.contains s old) eqn:E.
  - pose proof (remove_shortens old s Hold E). lia.
  - split; [reflexivity | now apply remove_absent].
Qed.

(** X4. The key is never longer than the original name. *)
Theorem sanitize_key_never_longer (original : string) :
  (String.length (sanitize_key original) <= String.length original)%nat.
Proof.
  unfold sanitize_key, PyStr.remove.
  repeat match goal with
         | |- (String.length (PyStr.remove_from ?o ?x 0) <= _)%nat =>
             etransitivity; [apply (remove_from_length o x 0)|]
         end.
  reflexivity.
Qed.

(** X5. The key is the original name exactly when none of the seven substrings
    [.wav], [.ogg], [#1-], [#2-], [#3-], [#4-], [_#] occurs in the name. *)
Theorem sanitize_key_fixed_iff (original : string) :
  sanitize_key original = original
  <-> Forall (fun pattern => PyStr.contains original pattern = false)
             patterns.
Proof.
  unfold sanitize_key, patterns. split.
  - intros H.
    set (s1 := PyStr.remove ".wav" original) in *.
    set (s2 := PyStr.remove ".ogg" s1) in *.
    set (s3 := PyStr.remove "#1-" s2) in *.
    set (s4 := PyStr.remove "#2-" s3) in *.
    set (s5 := PyStr.remove "#3-" s4) in *.
    set (s6 := PyStr.remove "#4-" s5) in *.
    pose proof (remove_from_length ".wav" original 0) as L1.
    pose proof (remove_from_length ".ogg" s1 0) as L2.
    pose proof (remove_from_length "#1-" s2 0) as L3.
    pose proof (remove_from_length "#2-" s3 0) as L4.
    pose proof (remove_from_length "#3-" s4 0) as L5.
    pose proof (remove_from_length "#4-" s5 0) as L6.
    pose proof (remove_from_length "_#" s6 0) as L7.
    fold (PyStr.remove ".wav" original) in L1. fold s1 in L1.
    fold (PyStr.remove ".ogg" s1) in L2. fold s2 in L2.
    fold (PyStr.remove "#1-" s2) in L3. fold s3 in L3.
    fold (PyStr.remove "#2-" s3) in L4. fold s4 in L4.
    fold (PyStr.remove "#3-" s4) in L5. fold s5 in L5.
    fold (PyStr.remove "#4-" s5) in L6. fold s6 in L6.
    fold (PyStr.remove "_#" s6) in L7.
    assert (L0 : String.length (PyStr.remove "_#" s6)
                 = String.length original) by now rewrite H.
    destruct (remove_same_length ".wav" original) as [C1 E1];
      [discriminate | fold s1; lia |]. fold s1 in E1.
    destruct (remove_same_length ".ogg" s1) as [C2 E2];
      [discriminate | fold s2; lia |]. fold s2 in E2.
    destruct (remove_same_length "#1-" s2) as [C3 E3];
      [discriminate | fold s3; lia |]. fold s3 in E3.
    destruct (remove_same_length "#2-" s3) as [C4 E4];
      [discriminate | fold s4; lia |]. fold s4 in E4.
    destruct (remove_same_length "#3-" s4) as [C5 E5];
      [discriminate | fold s5; lia |]. fold s5 in E5.
    destruct (remove_same_length "#4-" s5) as [C6 E6];
      [discriminate | fold s6; lia |]. fold s6 in E6.
    destruct (remove_same_length "_#" s6) as [C7 E7];
      [discriminate | lia |].
    assert (Es : s6 = original) by congruence.
    assert (s5 = original /\ s4 = original /\ s3 = original
            /\ s2 = original /\ s1 = original) as (E5' & E4' & E3' & E2' & E1')
      by (repeat split; congruence).
    rewrite Es in C7. rewrite E5' in C6. rewrite E4' in C5.
    rewrite E3' in C4. rewrite E2' in C3. rewrite E1' in C2.
    repeat constructor; assumption.
  - intros H.
    repeat match goal with
           | H : Forall _ (_ :: _) |- _ =>
               let C := fresh "C" in
               let H' := fresh "H" in
               inversion H as [|? ? C H']; subst; clear H
           end.
    rewrite (remove_absent ".wav" original) by assumption.
    rewrite (remove_absent ".ogg" original) by assumption.
    rewrite (remove_absent "#1-" original) by assumption.
    rewrite (remove_absent "#2-" original) by assumption.
    rewrite (remove_absent "#3-" original) by assumption.
    rewrite (remove_absent "#4-" original) by assumption.
    now apply remove_absent.
Qed.

End SanitiserBounds.

(** ** The classifier: case, keywords and longer names *)

Section ClassifierFacts.

Local Open Scope string_scope.

Lemma any_keyword_lower (f g : string) (keywords : list string) :
  PyStr.lower f = PyStr.lower g ->
  any_keyword f keywords = any_keyword g keywords.
Proof.
  intros H. induction keywords as [|k ks IH]; simpl; [reflexivity|].
  now rewrite H, IH.
Qed.

Lemma categorize_in_lower (cats : list (string * list string))
      (f g : string) :
  PyStr.lower f = PyStr.lower g ->
  categorize_in cats f = categorize_in cats g.
Proof.
  intros H. induction cats as [|[c ks] rest IH]; simpl; [reflexivity|].
  now rewrite (any_keyword_lower f g ks H), IH.
Qed.

Lemma lower_char_idempotent (c : ascii) :
  PyStr.lower_char (PyStr.lower_char c) = PyStr.lower_char c.
Proof.
  destruct c as [[] [] [] [] [] [] [] []]; vm_compute; reflexivity.
Qed.

Lemma lower_idempotent (s : string) :
  PyStr.lower (PyStr.lower s) = PyStr.lower s.
Proof.
  induction s as [|c s IH]; simpl; [reflexivity|].
  now rewrite lower_char_idempotent, IH.
Qed.

Lemma lower_app (a b : string) :
  PyStr.lower (a ++ b) = PyStr.lower a ++ PyStr.lower b.
Proof.
  induction a as [|c a IH]; simpl; [reflexivity | now rewrite IH].
Qed.

(** X6. Two filenames that differ only in the case of their letters are put in
    the same category; so is a filename and its lowered form. *)
Theorem categorize_file_ignores_case (f g : string) :
  PyStr.lower f = PyStr.lower g ->
  categorize_file f = categorize_file g
  /\ categorize_file (PyStr.lower f) = categorize_file f.
Proof.
  intros H. split.
  - now apply categorize_in_lower.
  - apply categorize_in_lower, lower_idempotent.
Qed.

Lemma categorize_file_ignores_case_witness :
  categorize_file "SHOTGUN_Fire.WAV" = categorize_file "shotgun_fire.wav"
  /\ categorize_file (PyStr.lower "SHOTGUN_Fire.WAV")
     = categorize_file "SHOTGUN_Fire.WAV".
Proof.
  apply categorize_file_ignores_case. reflexivity.
Defined.

(** X7. No keyword of the registry is shadowed: used as a filename, alone or
    with the extension [.wav] or [.ogg], every keyword is put in the
    category that declares it. *)
Theorem keywords_reach_their_category :
  Forall (fun entry =>
            Forall (fun keyword =>
                      categorize_file keyword = fst entry
                      /\ categorize_file (keyword ++ ".wav") = fst entry
                      /\ categorize_file (keyword ++ ".ogg") = fst entry)
                   (snd entry))
         AUDIO_CATEGORIES.
Proof.
  unfold AUDIO_CATEGORIES.
  repeat (apply Forall_cons || apply Forall_nil);
    cbn [fst snd]; repeat split; vm_compute; reflexivity.
Qed.

Lemma occurs_in_inside (sub f p s : string) :
  occurs_in sub f -> occurs_in sub (p ++ f ++ s).
Proof.
  intros [a [b ->]]. exists (p ++ a), (b ++ s).
  now rewrite !append_assoc.
Qed.

Lemma any_keyword_inside (f p s : string) (keywords : list string) :
  any_keyword f keywords = true ->
  any_keyword (p ++ f ++ s) keywords = true.
Proof.
  rewrite !any_keyword_spec. intros [k [Hin Hk]]. exists k. split; trivial.
  unfold keyword_matches in *. rewrite !lower_app.
  now apply occurs_in_inside.
Qed.

Lemma categorize_in_visited (cats : list (string * list string))
      (f g : string) :
  (forall keywords,
      any_keyword f keywords = true -> any_keyword g keywords = true) ->
  In (categorize_in cats g) (visited cats f)
  \/ (categorize_in cats g = "ambient"
      /\ visited cats f = List.map fst cats).
Proof.
  intros Hfg. induction cats as [|[c ks] rest IH]; simpl.
  - right. split; reflexivity.
  - destruct (any_keyword g ks) eqn:Eg; [left; now left|].
    destruct (any_keyword f ks) eqn:Ef.
    + rewrite (Hfg ks Ef) in Eg. discriminate Eg.
    + destruct IH as [IH | [IH1 IH2]].
      * left. now right.
      * right. split; [exact IH1 | now rewrite IH2].
Qed.

(** X8. Putting a name inside a longer one (a directory before it, an
    extension after it) never moves it to a category declared later: the
    category of the longer name is one the loop visits for the name
    itself, up to the one it returns. *)
Theorem categorize_file_inside (f p s : string) :
  In (categorize_file (p ++ f ++ s)) (visited AUDIO_CATEGORIES f)
  /\ last (visited AUDIO_CATEGORIES f) "" = categorize_file f.
Proof.
  split.
  - destruct (categorize_in_visited AUDIO_CATEGORIES f (p ++ f ++ s))
      as [H | [H1 H2]].
    + intros ks. apply any_keyword_inside.
    + exact H.
    + unfold categorize_file. rewrite H1, H2. simpl. tauto.
  - unfold categorize_file, AUDIO_CATEGORIES.
    cbn [visited categorize_in].
    repeat match goal with
           | |- context [any_keyword f ?ks] => destruct (any_keyword f ks)
           end; reflexivity.
Qed.

End ClassifierFacts.

(** ** When a run ends with a manifest, and what it prints *)

Section RunFacts.

Variable moment : Moment.

Local Open Scope string_scope.

Lemma output_path_parts (filepath category : string) :
  In category registry_enumeration ->
  output_path_of filepath category
  = PyPath.mk false
      [ "public"; "assets"; "audio"; "optimized"; category;
        PyPath.stem (PyPath.Path filepath) ++ ".ogg" ].
Proof.
  intros Hcat. unfold output_path_of.
  set (stem := PyPath.stem (PyPath.Path filepath)).
  assert (Hname : PyPath.Path (stem ++ ".ogg")
                  = PyPath.mk false [stem ++ ".ogg"]).
  { apply Path_component; [|apply ogg_name_kept].
    rewrite lacks_app. unfold stem. now rewrite stem_lacks_slash. }
  unfold PyPath.joinpath at 1. rewrite Hname.
  cbn [PyPath.anchored PyPath.parts]. simpl in Hcat.
  destruct Hcat as [<- | [<- | [<- | [<- | [<- | [<- | [<- | []]]]]]]];
    reflexivity.
Qed.

(** X9. Whatever the path of the input, the encoder is told to write one file
    directly inside [public/assets/audio/optimized/<category>], for one of
    the seven categories, and that directory is the one made before: the
    name of the output holds no slash. *)
Theorem output_stays_in_category_directory (item : string * AssetInfo) :
  In (category_of item) registry_enumeration
  /\ directory_of item
     = "public/assets/audio/optimized/" ++ category_of item
  /\ output_of item
     = directory_of item ++ "/"
       ++ PyPath.stem (PyPath.Path (fst item)) ++ ".ogg"
  /\ lacks "/" (PyPath.stem (PyPath.Path (fst item)) ++ ".ogg") = true.
Proof.
  pose proof (classifier_in_registry (file (snd item))) as Hcat.
  fold (category_of item) in Hcat.
  unfold directory_of, output_of.
  rewrite (output_path_parts (fst item) (category_of item) Hcat).
  repeat split; trivial.
  rewrite lacks_app. now rewrite stem_lacks_slash.
Qed.

Lemma processed_app (a b : list Line) :
  processed (a ++ b)%list = (processed a ++ processed b)%list.
Proof.
  induction a as [|x a IH]; [reflexivity|].
  destruct x; simpl; now rewrite IH.
Qed.

Lemma statuses_app (a b : list Line) :
  statuses (a ++ b)%list = (statuses a ++ statuses b)%list.
Proof.
  induction a as [|x a IH]; [reflexivity|].
  destruct x; simpl; now rewrite IH.
Qed.

(** The turn of a file, case by case: what the outside world answers
    decides whether it raises, and what it prints. *)
Ltac open_turn filepath info profile Hp rel Hrel :=
  destruct (classifier_profile_defined (file info)) as [profile Hp];
  destruct (relative_output_path filepath (categorize_file (file info))
              (classifier_in_registry (file info))) as [rel [Hrel _]];
  unfold optimize_one; rewrite Hp, Hrel;
  unfold optimize_audio_file, try_except, bind, lift, print, ret;
  cbv beta iota zeta.

Lemma optimize_one_runnable (acc : Acc) (item : string * AssetInfo)
      (out : list Line) :
  (exists acc' out', optimize_one moment acc item out = (Ok acc', out'))
  <-> runnable_at moment item.
Proof.
  destruct item as [filepath info].
  unfold runnable_at, directory_of, transcoded_at, encoder_result_at,
    output_of, category_of. cbn [fst snd].
  open_turn filepath info profile Hp rel Hrel.
  destruct (mkdir moment _) as [[]|e0]; cbv beta iota zeta.
  2: { split; [intros (? & ? & H); discriminate H
              | intros [H _]; discriminate H]. }
  destruct (subprocess_run moment _) as [rc|e1]; cbv beta iota zeta.
  2: { split; [intros _; split; [reflexivity | intros H; discriminate H]
              | intros _; eauto]. }
  destruct (Z.eqb rc 0); cbv beta iota zeta.
  2: { split; [intros _; split; [reflexivity | intros H; discriminate H]
              | intros _; eauto]. }
  destruct (getsize moment _) as [bytes|e2]; cbv beta iota zeta.
  2: { split; [intros (? & ? & H); discriminate H
              | intros [_ H]; destruct (H eq_refl) as [[? H'] _];
                discriminate H']. }
  unfold PyFloat.truediv.
  destruct (PrimFloat.eqb (size_kb info) 0); cbv beta iota zeta.
  - split; [intros (? & ? & H); discriminate H
           | intros [_ H]; destruct (H eq_refl) as [_ H']; discriminate H'].
  - split; [intros _; split; [reflexivity | intros _; split; eauto]
           | intros _; eauto].
Qed.

Lemma optimize_one_console (acc acc' : Acc) (item : string * AssetInfo)
      (out out' : list Line) :
  optimize_one moment acc item out = (Ok acc', out') ->
  processed out' = (processed out ++ [file (snd item)])%list
  /\ statuses out' = (statuses out ++ [transcoded_at moment item])%list.
Proof.
  destruct item as [filepath info].
  unfold transcoded_at, encoder_result_at, output_of, category_of.
  cbn [fst snd].
  open_turn filepath info profile Hp rel Hrel.
  destruct (mkdir moment _) as [[]|e0]; cbv beta iota zeta;
    [|intros H; discriminate H].
  destruct (subprocess_run moment _) as [rc|e1]; cbv beta iota zeta.
  - destruct (Z.eqb rc 0); cbv beta iota zeta.
    + destruct (getsize moment _) as [bytes|e2]; cbv beta iota zeta;
        [|intros H; discriminate H].
      unfold PyFloat.truediv.
      destruct (PrimFloat.eqb (size_kb info) 0); cbv beta iota zeta;
        [intros H; discriminate H|].
      intros H. injection H as _ <-.
      rewrite !processed_app, !statuses_app. cbn.
      now rewrite !app_nil_r.
    + intros H. injection H as _ <-.
      rewrite !processed_app, !statuses_app. cbn.
      now rewrite !app_nil_r.
  - intros H. injection H as _ <-.
    rewrite !processed_app, !statuses_app. cbn.
    now rewrite !app_nil_r.
Qed.

End RunFacts.

Section LoopFacts.

Variable world : World.

Local Open Scope string_scope.

Lemma optimize_all_runnable (results : list (string * AssetInfo)) :
  forall (turn : nat) (acc : Acc) (out : list Line),
    (exists acc' out',
        optimize_all world turn results acc out = (Ok acc', out'))
    <-> Forall (runnable world) (turns_from turn results).
Proof.
  induction results as [|item rest IH]; intros turn acc out.
  - split; [constructor | intros _; exists acc, out; reflexivity].
  - cbn [optimize_all turns_from]. unfold bind. split.
    + intros (acc' & out' & H).
      destruct (optimize_one (world turn) acc item out) as [[acc1|e] out1]
        eqn:E; [|discriminate H].
      constructor.
      * apply (optimize_one_runnable (world turn) acc item out). eauto.
      * apply (IH (S turn) acc1 out1). eauto.
    + intros H. inversion H as [|? ? Hitem Hrest]; subst.
      apply (optimize_one_runnable (world turn) acc item out) in Hitem.
      destruct Hitem as (acc1 & out1 & ->). now apply IH.
Qed.

Lemma optimize_all_console (results : list (string * AssetInfo)) :
  forall (turn : nat) (acc acc' : Acc) (out out' : list Line),
    optimize_all world turn results acc out = (Ok acc', out') ->
    processed out'
    = (processed out ++ List.map (fun item => file (snd item)) results)%list
    /\ statuses out'
       = (statuses out
          ++ List.map (transcoded world) (turns_from turn results))%list.
Proof.
  induction results as [|item rest IH]; intros turn acc acc' out out' H.
  - cbn in H. injection H as _ <-. now rewrite !app_nil_r.
  - cbn [optimize_all] in H. unfold bind in H.
    destruct (optimize_one (world turn) acc item out) as [[acc1|e] out1]
      eqn:E; [|discriminate H].
    apply optimize_one_console in E. destruct E as [E1 E2].
    apply IH in H. destruct H as [H1 H2].
    rewrite H1, H2, E1, E2, <- !app_assoc. split; reflexivity.
Qed.

End LoopFacts.

Lemma main_ok_total (world : World) (results : list (string * AssetInfo))
      (out out' : list Line) (manifest : Manifest) :
  main world results out = (Ok manifest, out') ->
  PrimFloat.eqb (total_size_before results) 0 = false.
Proof.
  unfold main, bind, lift, print, ret. cbv beta iota zeta.
  destruct (optimize_all world 0 results _ _) as [[acc|e] out1];
    cbv beta iota zeta; [|intros H; discriminate H].
  unfold PyFloat.truediv.
  destruct (PrimFloat.eqb (total_size_before results) 0);
    cbv beta iota zeta; [intros H; discriminate H | reflexivity].
Qed.

Lemma main_console (world : World) (results : list (string * AssetInfo))
      (out out' : list Line) (manifest : Manifest) :
  main world results out = (Ok manifest, out') ->
  exists acc out1,
    optimize_all world 0 results (mkAcc 0 [])
                 ((out ++ [Optimizing_audio_files]) ++ [Rule])
    = (Ok acc, out1)
    /\ processed out' = processed out1
    /\ statuses out' = statuses out1.
Proof.
  unfold main, bind, lift, print, ret. cbv beta iota zeta.
  destruct (optimize_all world 0 results _ _) as [[acc|e] out1];
    cbv beta iota zeta; [|intros H; discriminate H].
  unfold PyFloat.truediv.
  destruct (PrimFloat.eqb (total_size_before results) 0);
    cbv beta iota zeta; [intros H; discriminate H|].
  intros H. injection H as _ <-. exists acc, out1.
  rewrite !processed_app, !statuses_app. cbn.
  now rewrite !app_nil_r.
Qed.

(** X10. A run ends with a manifest exactly when, for every analysed file, its
    directory can be made and, if the encoder succeeds, the output can be
    measured and the analysed size is not zero, all this in the turn of the
    file, and the sizes before add up to something other than zero.  Any
    other run raises before the manifest is built. *)
Theorem main_manifest_iff (world : World)
        (results : list (string * AssetInfo)) (out : list Line) :
  (exists manifest out', main world results out = (Ok manifest, out'))
  <-> (Forall (runnable world) (turns results)
       /\ PrimFloat.eqb (total_size_before results) 0 = false).
Proof.
  split.
  - intros (manifest & out' & H). split.
    + pose proof H as H'. apply main_inv in H'.
      destruct H' as (acc & out1 & l & Hloop & _).
      apply (optimize_all_runnable world results 0 (mkAcc 0 [])
               ((out ++ [Optimizing_audio_files]) ++ [Rule])).
      eauto.
    + exact (main_ok_total world results out out' manifest H).
  - intros [Hall Hbefore].
    apply (optimize_all_runnable world results 0 (mkAcc 0 [])
             ((out ++ [Optimizing_audio_files]) ++ [Rule])) in Hall.
    destruct Hall as (acc & out1 & Hloop).
    exact (main_runs world results out out1 acc Hloop Hbefore).
Qed.

(** X11. When the sizes before add up to zero, as they do when no file was
    analysed, the run raises and builds no manifest: if the loop itself
    runs through, it is the summary that divides by zero, after the two
    totals have been printed. *)
Theorem main_zero_total_raises (world : World)
        (results : list (string * AssetInfo)) (out : list Line) :
  PrimFloat.eqb (total_size_before results) 0 = true ->
  (exists e out', main world results out = (Raise e, out'))
  /\ forall acc out1,
      optimize_all world 0 results (mkAcc 0 [])
                   ((out ++ [Optimizing_audio_files]) ++ [Rule])
      = (Ok acc, out1) ->
      main world results out
      = (Raise ZeroDivisionError,
         out1 ++ [ Rule; Optimization_results;
                   Total_size_before (total_size_before results)
                     (total_size_before results / 1024)%float;
                   Total_size_after (total_size_after acc)
                     (total_size_after acc / 1024)%float ]).
Proof.
  intros Hzero. unfold main, bind, lift, print, ret. cbv beta iota zeta.
  destruct (optimize_all world 0 results _ _) as [[acc|e] out1];
    cbv beta iota zeta.
  - unfold PyFloat.truediv. rewrite Hzero. cbv beta iota zeta.
    split; [eauto|].
    intros acc0 out0 H. injection H as <- <-.
    now rewrite <- !app_assoc.
  - split; [eauto | intros ? ? H; discriminate H].
Qed.

Lemma main_zero_total_raises_witness :
  (exists e out', main demo_world [] [] = (Raise e, out'))
  /\ forall acc out1,
      optimize_all demo_world 0 [] (mkAcc 0 [])
                   (([] ++ [Optimizing_audio_files]) ++ [Rule])
      = (Ok acc, out1) ->
      main demo_world [] []
      = (Raise ZeroDivisionError,
         out1 ++ [ Rule; Optimization_results;
                   Total_size_before (total_size_before [])
                     (total_size_before [] / 1024)%float;
                   Total_size_after (total_size_after acc)
                     (total_size_after acc / 1024)%float ]).
Proof.
  apply (main_zero_total_raises demo_world [] []). reflexivity.
Defined.

(** X12. On the console of a run that ends with a manifest, the [Processing]
    lines name the analysed files in their order, each once, and the
    status lines say, in the same order, [OK] for each file the encoder
    succeeded for and [FAIL] for each it failed for. *)
Theorem main_console_order (world : World)
        (results : list (string * AssetInfo)) (out out' : list Line)
        (manifest : Manifest) :
  main world results out = (Ok manifest, out') ->
  processed out'
  = processed out ++ List.map (fun item => file (snd item)) results
  /\ statuses out'
     = statuses out ++ List.map (transcoded world) (turns results).
Proof.
  intros H. apply main_console in H.
  destruct H as (acc & out1 & Hloop & -> & ->).
  apply optimize_all_console in Hloop. destruct Hloop as [-> ->].
  rewrite !processed_app, !statuses_app. cbn.
  now rewrite !app_nil_r.
Qed.

Lemma main_console_order_witness :
  processed demo_out
  = processed [] ++ List.map (fun item => file (snd item)) demo_results
  /\ statuses demo_out
     = statuses [] ++ List.map (transcoded demo_world) (turns demo_results).
Proof.
  apply (main_console_order demo_world demo_results [] demo_out
                            demo_manifest).
  vm_compute. reflexivity.
Defined.

(** ** The generated map *)

Section MapFacts.

Variable format_1f : float -> string.

Variable upper : string -> string.

Local Open Scope string_scope.

Lemma dict_get_in {V : Type} (d : list (string * V)) (key : string) (v : V) :
  dict_get d key = Some v -> In (key, v) d.
Proof.
  induction d as [|[k v0] d IH]; simpl; [discriminate|].
  destruct (String.eqb k key) eqn:E.
  - apply String.eqb_eq in E. intros H. injection H as ->. subst. now left.
  - intros H. right. now apply IH.
Qed.

Lemma in_dict_get {V : Type} (d : list (string * V)) (key : string) (v : V) :
  NoDup (List.map fst d) -> In (key, v) d -> dict_get d key = Some v.
Proof.
  induction d as [|[k v0] d IH]; simpl; intros Hnd Hin; [destruct Hin|].
  inversion Hnd as [|? ? Hk Hnd']; subst.
  destruct Hin as [Heq | Hin].
  - injection Heq as -> ->. now rewrite String.eqb_refl.
  - destruct (String.eqb k key) eqn:E.
    + apply String.eqb_eq in E. subst k. exfalso. apply Hk.
      apply in_map_iff. now exists (key, v).
    + now apply IH.
Qed.

(** *** Grouping *)

Lemma group_step_get (d : list (string * list FileEntry)) (file : FileEntry)
      (c : string) :
  dict_get (TsMap.group_step d file) c
  = if String.eqb (category file) c
    then Some (match dict_get d (category file) with
               | Some l => l
               | None => []
               end ++ [file])%list
    else dict_get d c.
Proof.
  unfold TsMap.group_step.
  destruct (String.eqb (category file) c) eqn:E.
  - apply String.eqb_eq in E. subst c.
    destruct (dict_get d (category file)) as [l|] eqn:El.
    + rewrite El. apply dict_get_set_same.
    + rewrite (dict_get_set_same d (category file) []).
      apply dict_get_set_same.
  - apply String.eqb_neq in E.
    destruct (dict_get d (category file)) as [l|] eqn:El.
    + rewrite El. apply dict_get_set_other. congruence.
    + rewrite (dict_get_set_same d (category file) []).
      rewrite !dict_get_set_other by congruence. reflexivity.
Qed.

Lemma group_step_nodup (d : list (string * list FileEntry))
      (file : FileEntry) :
  NoDup (List.map fst d) -> NoDup (List.map fst (TsMap.group_step d file)).
Proof.
  intros Hnd. unfold TsMap.group_step. apply dict_set_nodup.
  destruct (dict_get d (category file)); [exact Hnd|].
  now apply dict_set_nodup.
Qed.

Lemma by_category_snoc (files : list FileEntry) (file : FileEntry) :
  TsMap.by_category (files ++ [file])%list
  = TsMap.group_step (TsMap.by_category files) file.
Proof. unfold TsMap.by_category. now rewrite fold_left_app. Qed.

Lemma by_category_nodup (files : list FileEntry) :
  NoDup (List.map fst (TsMap.by_category files)).
Proof.
  induction files as [|file files IH] using rev_ind; [constructor|].
  rewrite by_category_snoc. now apply group_step_nodup.
Qed.

Lemma by_category_get (files : list FileEntry) (c : string) :
  dict_get (TsMap.by_category files) c
  = match files_of c files with
    | [] => None
    | l => Some l
    end.
Proof.
  induction files as [|file files IH] using rev_ind; [reflexivity|].
  rewrite by_category_snoc, group_step_get.
  unfold files_of in *. rewrite filter_app. cbn [filter].
  destruct (String.eqb (category file) c) eqn:E.
  - apply String.eqb_eq in E. subst c. rewrite IH.
    destruct (filter _ files); reflexivity.
  - rewrite IH, app_nil_r. reflexivity.
Qed.

(** X13. The grouping loop files every entry under its category: the dict it
    builds has distinct keys, and under a category it holds the entries of
    that category in the order of the input, or nothing if there is
    none. *)
Theorem by_category_groups (files : list FileEntry) :
  NoDup (List.map fst (TsMap.by_category files))
  /\ forall c,
      dict_get (TsMap.by_category files) c
      = match files_of c files with
        | [] => None
        | l => Some l
        end.
Proof.
  split; [apply by_category_nodup | apply by_category_get].
Qed.

(** *** Sorting *)

Lemma insert_item_perm {V : Type} (item : string * V)
      (items : list (string * V)) :
  Permutation (insert_item item items) (item :: items).
Proof.
  induction items as [|next rest IH]; simpl; [reflexivity|].
  destruct (String.leb (fst item) (fst next)); [reflexivity|].
  rewrite IH. apply perm_swap.
Qed.

Lemma sorted_items_perm {V : Type} (items : list (string * V)) :
  Permutation (sorted_items items) items.
Proof.
  induction items as [|item items IH]; simpl; [reflexivity|].
  rewrite insert_item_perm. now constructor.
Qed.

Lemma insert_item_sorted {V : Type} (item : string * V)
      (items : list (string * V)) :
  Sorted key_le items -> Sorted key_le (insert_item item items).
Proof.
  induction items as [|next rest IH]; simpl; intros Hs.
  - repeat constructor.
  - destruct (String.leb (fst item) (fst next)) eqn:E.
    + constructor; [exact Hs | constructor; exact E].
    + inversion Hs as [|? ? Hrest Hhd]; subst.
      constructor; [now apply IH|].
      assert (Hle : key_le next item).
      { unfold key_le.
        destruct (String.leb_total (fst item) (fst next)) as [H | H];
          [congruence | exact H]. }
      destruct rest as [|y rest]; simpl.
      * constructor. exact Hle.
      * destruct (String.leb (fst item) (fst y)); constructor;
          [exact Hle | now inversion Hhd].
Qed.

Lemma sorted_items_ascend {V : Type} (items : list (string * V)) :
  Sorted key_le (sorted_items items).
Proof.
  induction items as [|item items IH]; simpl; [constructor|].
  now apply insert_item_sorted.
Qed.

(** [sorted] returns the items it was given, rearranged so that the keys
    ascend in code point order. *)
Theorem sorted_items_sorted {V : Type} (items : list (string * V)) :
  Permutation (sorted_items items) items
  /\ Sorted key_le (sorted_items items).
Proof.
  split; [apply sorted_items_perm | apply sorted_items_ascend].
Qed.

End MapFacts.

Section MapTextFacts.

Variable format_1f : float -> string.

Variable upper : string -> string.

Local Open Scope string_scope.

Lemma append_file_record (c ts : string) (file : FileEntry) :
  append_file format_1f c ts file = ts ++ record format_1f c file.
Proof.
  unfold record, append_file. cbn zeta.
  now rewrite !append_assoc.
Qed.

Lemma fold_append_file (c : string) (files : list FileEntry) :
  forall ts,
    fold_left (append_file format_1f c) files ts
    = ts ++ joined (List.map (record format_1f c) files).
Proof.
  induction files as [|file files IH]; intros ts; simpl.
  - now rewrite append_empty.
  - now rewrite IH, append_file_record, append_assoc.
Qed.

Lemma append_category_part (ts : string) (item : string * list FileEntry) :
  append_category format_1f upper ts item = ts ++ item_part format_1f upper item.
Proof.
  destruct item as [c fs]. unfold append_category, item_part.
  cbn [fst snd]. rewrite fold_append_file. now rewrite !append_assoc.
Qed.

Lemma fold_append_category (items : list (string * list FileEntry)) :
  forall ts,
    fold_left (append_category format_1f upper) items ts
    = ts ++ joined (List.map (item_part format_1f upper) items).
Proof.
  induction items as [|item items IH]; intros ts;
    cbn [fold_left List.map joined].
  - now rewrite append_empty.
  - now rewrite IH, append_category_part, append_assoc.
Qed.

Lemma sorted_item_files (files : list FileEntry) (c : string)
      (fs : list FileEntry) :
  In (c, fs) (sorted_items (TsMap.by_category files)) ->
  fs = files_of c files.
Proof.
  intros Hin.
  apply (Permutation_in _ (sorted_items_perm (TsMap.by_category files)))
    in Hin.
  apply (in_dict_get _ _ _ (by_category_nodup files)) in Hin.
  rewrite by_category_get in Hin.
  destruct (files_of c files); [discriminate Hin | now injection Hin].
Qed.

Lemma generate_parts (files : list FileEntry) :
  generate_typescript_map format_1f upper files
  = TsMap.header
    ++ joined (List.map (category_part format_1f upper files)
                        (listed_categories files))
    ++ TsMap.footer.
Proof.
  unfold generate_typescript_map, listed_categories. cbn zeta.
  rewrite fold_append_category, append_assoc. do 3 f_equal.
  rewrite map_map. apply map_ext_in. intros [c fs] Hin.
  unfold item_part, category_part. cbn [fst snd].
  now rewrite (sorted_item_files files c fs Hin).
Qed.

Lemma listed_categories_in (files : list FileEntry) (c : string) :
  In c (listed_categories files)
  <-> exists file, In file files /\ category file = c.
Proof.
  unfold listed_categories. split.
  - intros Hin. apply in_map_iff in Hin. destruct Hin as [[c' fs] [<- Hin]].
    pose proof (sorted_item_files files c' fs Hin) as Hfs.
    apply (Permutation_in _ (sorted_items_perm (TsMap.by_category files)))
      in Hin.
    apply (in_dict_get _ _ _ (by_category_nodup files)) in Hin.
    rewrite by_category_get in Hin. cbn [fst].
    destruct (files_of c' files) as [|file l] eqn:E; [discriminate Hin|].
    assert (Hf : In file (files_of c' files)) by (rewrite E; now left).
    apply filter_In in Hf. destruct Hf as [Hf Hc].
    apply String.eqb_eq in Hc. now exists file.
  - intros (file & Hin & <-).
    assert (Hf : In file (files_of (category file) files)).
    { apply filter_In. split; [exact Hin | apply String.eqb_refl]. }
    pose proof (by_category_get files (category file)) as Hget.
    destruct (files_of (category file) files) as [|f0 l] eqn:E;
      [destruct Hf|].
    apply dict_get_in in Hget.
    apply (Permutation_in _
             (Permutation_sym (sorted_items_perm (TsMap.by_category files))))
      in Hget.
    apply in_map_iff. now exists (category file, f0 :: l).
Qed.

Lemma listed_categories_sorted (files : list FileEntry) :
  Sorted (fun a b => String.leb a b = true) (listed_categories files)
  /\ NoDup (listed_categories files).
Proof.
  unfold listed_categories. split.
  - pose proof (sorted_items_ascend (TsMap.by_category files)) as Hs.
    induction Hs as [|item items Hs IH Hhd]; simpl; constructor; trivial.
    destruct Hhd; constructor. assumption.
  - apply (Permutation_NoDup
             (l := List.map fst (TsMap.by_category files))).
    + apply Permutation_map, Permutation_sym, sorted_items_perm.
    + apply by_category_nodup.
Qed.

(** X14. The generated text is the header, then one part for each category
    that has a file, then the footer.  The categories come each once, in
    ascending code point order; the part of a category is its comment line
    followed by the records of its files in the order of the input. *)
Theorem generate_typescript_map_text (files : list FileEntry) :
  generate_typescript_map format_1f upper files
  = TsMap.header
    ++ joined (List.map (category_part format_1f upper files)
                        (listed_categories files))
    ++ TsMap.footer
  /\ Sorted (fun a b => String.leb a b = true) (listed_categories files)
  /\ NoDup (listed_categories files)
  /\ forall c,
      In c (listed_categories files)
      <-> exists file, In file files /\ category file = c.
Proof.
  split; [apply generate_parts|].
  split; [apply listed_categories_sorted|].
  split; [apply listed_categories_sorted | apply listed_categories_in].
Qed.

Lemma occurs_in_joined (x : string) (parts : list string) :
  In x parts -> occurs_in x (joined parts).
Proof.
  induction parts as [|p parts IH]; intros Hin; [destruct Hin|].
  destruct Hin as [-> | Hin]; simpl.
  - exists "", (joined parts). reflexivity.
  - destruct (IH Hin) as [a [b ->]]. exists (p ++ a), b.
    now rewrite append_assoc.
Qed.

Lemma occurs_in_trans (x y z : string) :
  occurs_in x y -> occurs_in y z -> occurs_in x z.
Proof.
  intros [a [b ->]] [a' [b' ->]]. exists (a' ++ a), (b ++ b').
  now rewrite !append_assoc.
Qed.

(** X15. Every file has its record in the generated text, under its sanitised
    key and with its own category, whatever the other files are: a
    collision of keys drops no record. *)
Theorem every_file_has_a_record (files : list FileEntry)
        (file : FileEntry) :
  In file files ->
  occurs_in (record format_1f (category file) file)
            (generate_typescript_map format_1f upper files)
  /\ occurs_in ("  '" ++ sanitize_key (original file) ++ "': {")
               (record format_1f (category file) file).
Proof.
  intros Hin. split.
  - rewrite generate_parts.
    assert (Hc : In (category file) (listed_categories files)).
    { apply listed_categories_in. now exists file. }
    assert (Hf : In file (files_of (category file) files)).
    { apply filter_In. split; [exact Hin | apply String.eqb_refl]. }
    apply occurs_in_trans
      with (y := category_part format_1f upper files (category file)).
    + unfold category_part.
      apply occurs_in_trans
        with (y := joined (List.map (record format_1f (category file))
                                    (files_of (category file) files))).
      * apply occurs_in_joined. now apply in_map.
      * eexists. exists "". rewrite append_empty.
        rewrite <- !append_assoc. reflexivity.
    + apply occurs_in_trans
        with (y := joined (List.map (category_part format_1f upper files)
                                    (listed_categories files))).
      * apply occurs_in_joined. now apply in_map.
      * exists TsMap.header, TsMap.footer. reflexivity.
  - unfold record, append_file. cbn zeta. exists "". eexists.
    cbn [append]. rewrite !append_assoc. reflexivity.
Qed.

End MapTextFacts.

(** ** The command line of the converters *)

Section CommandLine.

Local Open Scope string_scope.

Lemma pair_induction (P : list string -> Prop) :
  P [] ->
  (forall x, P [x]) ->
  (forall a v rest, P rest -> P (a :: v :: rest)) ->
  forall l, P l.
Proof.
  intros Hnil Hone Hpair l.
  assert (H : P l /\ forall x, P (x :: l)).
  { induction l as [|y l [IH1 IH2]]; split; auto. }
  exact (proj1 H).
Qed.

Lemma after_separator_none (argv : list string) :
  ~ In "--" argv -> Argv.after_separator argv = None.
Proof.
  induction argv as [|arg rest IH]; simpl; intros H; [reflexivity|].
  destruct (String.eqb arg "--") eqn:E.
  - apply String.eqb_eq in E. tauto.
  - apply IH. tauto.
Qed.

Lemma after_separator_first (before rest : list string) :
  ~ In "--" before ->
  Argv.after_separator (before ++ "--" :: rest)%list = Some rest.
Proof.
  induction before as [|arg before IH]; simpl; intros H; [reflexivity|].
  destruct (String.eqb arg "--") eqn:E.
  - apply String.eqb_eq in E. tauto.
  - apply IH. tauto.
Qed.

Lemma trees_pairs_input (script_args : list string) :
  forall args,
    ConvertTrees.input (ConvertTrees.parse_pairs script_args args)
    = match last_value "input" script_args with
      | Some value => value
      | None => ConvertTrees.input args
      end.
Proof.
  induction script_args as [| x | a v rest IH] using pair_induction;
    intros args; try reflexivity.
  cbn [ConvertTrees.parse_pairs last_value]. rewrite IH.
  destruct (last_value "input" rest); [reflexivity|].
  destruct (String.eqb (Argv.lstrip_dash a) "input") eqn:E1;
    [reflexivity|].
  destruct (String.eqb (Argv.lstrip_dash a) "output");
    [reflexivity|].
  destruct (String.eqb (Argv.lstrip_dash a) "no-stumps"); reflexivity.
Qed.

Lemma trees_pairs_output (script_args : list string) :
  forall args,
    ConvertTrees.output (ConvertTrees.parse_pairs script_args args)
    = match last_value "output" script_args with
      | Some value => value
      | None => ConvertTrees.output args
      end.
Proof.
  induction script_args as [| x | a v rest IH] using pair_induction;
    intros args; try reflexivity.
  cbn [ConvertTrees.parse_pairs last_value]. rewrite IH.
  destruct (last_value "output" rest); [reflexivity|].
  destruct (String.eqb (Argv.lstrip_dash a) "input") eqn:E1.
  - apply String.eqb_eq in E1. rewrite E1. reflexivity.
  - destruct (String.eqb (Argv.lstrip_dash a) "output");
      [reflexivity|].
    destruct (String.eqb (Argv.lstrip_dash a) "no-stumps"); reflexivity.
Qed.

Lemma bushes_pairs_input (script_args : list string) :
  forall args,
    ConvertBushes.input (ConvertBushes.parse_pairs script_args args)
    = match last_value "input" script_args with
      | Some value => value
      | None => ConvertBushes.input args
      end.
Proof.
  induction script_args as [| x | a v rest IH] using pair_induction;
    intros args; try reflexivity.
  cbn [ConvertBushes.parse_pairs last_value]. rewrite IH.
  destruct (last_value "input" rest); [reflexivity|].
  destruct (String.eqb (Argv.lstrip_dash a) "input") eqn:E1;
    [reflexivity|].
  destruct (String.eqb (Argv.lstrip_dash a) "output"); reflexivity.
Qed.

Lemma bushes_pairs_output (script_args : list string) :
  forall args,
    ConvertBushes.output (ConvertBushes.parse_pairs script_args args)
    = match last_value "output" script_args with
      | Some value => value
      | None => ConvertBushes.output args
      end.
Proof.
  induction script_args as [| x | a v rest IH] using pair_induction;
    intros args; try reflexivity.
  cbn [ConvertBushes.parse_pairs last_value]. rewrite IH.
  destruct (last_value "output" rest); [reflexivity|].
  destruct (String.eqb (Argv.lstrip_dash a) "input") eqn:E1.
  - apply String.eqb_eq in E1. rewrite E1. reflexivity.
  - destruct (String.eqb (Argv.lstrip_dash a) "output"); reflexivity.
Qed.

(** X16. Both converters read their command line the same way: the input and
    the output are the values of the last [input] and the last [output]
    pair after the first [--], a key counting with any number of leading
    dashes, and the script's own default where there is no such pair or no
    [--]. *)
Theorem parse_args_last_pair (argv : list string) :
  ConvertTrees.input (ConvertTrees.parse_args argv)
  = setting "input" ConvertTrees.DEFAULT_INPUT argv
  /\ ConvertTrees.output (ConvertTrees.parse_args argv)
     = setting "output" ConvertTrees.DEFAULT_OUTPUT argv
  /\ ConvertBushes.input (ConvertBushes.parse_args argv)
     = setting "input" ConvertBushes.DEFAULT_INPUT argv
  /\ ConvertBushes.output (ConvertBushes.parse_args argv)
     = setting "output" ConvertBushes.DEFAULT_OUTPUT argv.
Proof.
  unfold ConvertTrees.parse_args, ConvertBushes.parse_args, setting.
  cbn zeta.
  destruct (Argv.after_separator argv) as [script_args|];
    [|repeat split].
  rewrite trees_pairs_input, trees_pairs_output,
    bushes_pairs_input, bushes_pairs_output.
  repeat split.
Qed.

Lemma trees_pairs_stumps (script_args : list string) :
  forall args,
    ConvertTrees.create_stumps args = false ->
    ConvertTrees.create_stumps (ConvertTrees.parse_pairs script_args args)
    = false.
Proof.
  induction script_args as [| x | a v rest IH] using pair_induction;
    intros args Hargs; try exact Hargs.
  cbn [ConvertTrees.parse_pairs]. apply IH.
  destruct (String.eqb (Argv.lstrip_dash a) "input"); [exact Hargs|].
  destruct (String.eqb (Argv.lstrip_dash a) "output"); [exact Hargs|].
  destruct (String.eqb (Argv.lstrip_dash a) "no-stumps");
    [reflexivity | exact Hargs].
Qed.

(** X17. No command line makes the tree converter create stumps: the setting
    starts false and the only option that touches it sets it to false. *)
Theorem trees_never_create_stumps (argv : list string) :
  ConvertTrees.create_stumps (ConvertTrees.parse_args argv) = false.
Proof.
  unfold ConvertTrees.parse_args. cbn zeta.
  destruct (Argv.after_separator argv); [|reflexivity].
  now apply trees_pairs_stumps.
Qed.

(** X18. A command line without the separator [--] leaves both converters with
    their defaults, whatever else it holds. *)
Theorem parse_args_without_separator (argv : list string) :
  ~ In "--" argv ->
  ConvertTrees.parse_args argv
  = ConvertTrees.mkArgs ConvertTrees.DEFAULT_INPUT
                        ConvertTrees.DEFAULT_OUTPUT false
  /\ ConvertBushes.parse_args argv
     = ConvertBushes.mkArgs ConvertBushes.DEFAULT_INPUT
                            ConvertBushes.DEFAULT_OUTPUT.
Proof.
  intros H. unfold ConvertTrees.parse_args, ConvertBushes.parse_args.
  cbn zeta. rewrite (after_separator_none argv H). split; reflexivity.
Qed.

Lemma parse_args_without_separator_witness :
  ConvertTrees.parse_args
    ["blender"; "--background"; "--input"; "other.fbx"]
  = ConvertTrees.mkArgs ConvertTrees.DEFAULT_INPUT
                        ConvertTrees.DEFAULT_OUTPUT false
  /\ ConvertBushes.parse_args
       ["blender"; "--background"; "--input"; "other.fbx"]
     = ConvertBushes.mkArgs ConvertBushes.DEFAULT_INPUT
                            ConvertBushes.DEFAULT_OUTPUT.
Proof.
  apply parse_args_without_separator.
  simpl. intuition discriminate.
Defined.

(** X19. An option that is neither [input] nor [output] still takes the
    argument after it as its value: the pair is skipped as a whole, so
    after [--no-stumps] the next argument is not read as a key. *)
Theorem unknown_option_takes_next_argument
        (before rest : list string) (option value : string) :
  ~ In "--" before ->
  Argv.lstrip_dash option <> "input" ->
  Argv.lstrip_dash option <> "output" ->
  ConvertTrees.parse_args (before ++ "--" :: option :: value :: rest)%list
  = ConvertTrees.parse_args (before ++ "--" :: rest)%list
  /\ ConvertBushes.parse_args
       (before ++ "--" :: option :: value :: rest)%list
     = ConvertBushes.parse_args (before ++ "--" :: rest)%list.
Proof.
  intros Hsep Hin Hout.
  unfold ConvertTrees.parse_args, ConvertBushes.parse_args. cbn zeta.
  rewrite !after_separator_first by exact Hsep.
  cbn [ConvertTrees.parse_pairs ConvertBushes.parse_pairs].
  apply String.eqb_neq in Hin, Hout. rewrite Hin, Hout.
  destruct (String.eqb (Argv.lstrip_dash option) "no-stumps");
    split; reflexivity.
Qed.

Lemma unknown_option_takes_next_argument_witness :
  ConvertTrees.parse_args
    (["blender"] ++ "--" :: "--no-stumps" :: "--input" :: ["a.fbx"])%list
  = ConvertTrees.parse_args (["blender"] ++ "--" :: ["a.fbx"])%list
  /\ ConvertBushes.parse_args
       (["blender"] ++ "--" :: "--no-stumps" :: "--input" :: ["a.fbx"])%list
     = ConvertBushes.parse_args (["blender"] ++ "--" :: ["a.fbx"])%list.
Proof.
  apply unknown_option_takes_next_argument.
  - simpl. intuition discriminate.
  - vm_compute. discriminate.
  - vm_compute. discriminate.
Defined.

End CommandLine.

(** ** The analysis loop *)

Section AnalysisFacts.

Variable analyze_audio_file : string -> option AssetInfo.

Lemma path_compare_antisym (a b : list string) :
  PathOrder.compare a b = CompOpp (PathOrder.compare b a).
Proof.
  revert b. induction a as [|x a IH]; intros [|y b]; simpl; try reflexivity.
  rewrite (String.compare_antisym x y).
  destruct (String.compare y x); simpl; [apply IH | reflexivity..].
Qed.

Lemma path_leb_total (p q : PyPath.t) :
  PathOrder.leb p q = true \/ PathOrder.leb q p = true.
Proof.
  unfold PathOrder.leb.
  rewrite (path_compare_antisym (PathOrder.cparts p) (PathOrder.cparts q)).
  destruct (PathOrder.compare (PathOrder.cparts q) (PathOrder.cparts p));
    simpl; auto.
Qed.

Lemma path_insert_perm (p : PyPath.t) (l : list PyPath.t) :
  Permutation (PathOrder.insert p l) (p :: l).
Proof.
  induction l as [|q l IH]; simpl; [reflexivity|].
  destruct (PathOrder.leb p q); [reflexivity|].
  rewrite IH. apply perm_swap.
Qed.

Lemma path_insert_sorted (p : PyPath.t) (l : list PyPath.t) :
  Sorted (fun a b => PathOrder.leb a b = true) l ->
  Sorted (fun a b => PathOrder.leb a b = true) (PathOrder.insert p l).
Proof.
  induction l as [|q l IH]; simpl; intros Hs.
  - repeat constructor.
  - destruct (PathOrder.leb p q) eqn:E.
    + constructor; [exact Hs | constructor; exact E].
    + inversion Hs as [|? ? Hrest Hhd]; subst.
      constructor; [now apply IH|].
      assert (Hle : PathOrder.leb q p = true).
      { destruct (path_leb_total p q) as [H | H]; [congruence | exact H]. }
      destruct l as [|y l]; simpl.
      * constructor. exact Hle.
      * destruct (PathOrder.leb p y); constructor;
          [exact Hle | now inversion Hhd].
Qed.

Lemma path_sorted_spec (paths : list PyPath.t) :
  Permutation (PathOrder.sorted paths) paths
  /\ Sorted (fun a b => PathOrder.leb a b = true) (PathOrder.sorted paths).
Proof.
  induction paths as [|p paths [IH1 IH2]]; simpl.
  - split; constructor.
  - split.
    + rewrite path_insert_perm. now constructor.
    + now apply path_insert_sorted.
Qed.

Lemma analyse_loop (paths : list PyPath.t) :
  forall st,
    analysed (fold_left (analyse_one analyze_audio_file) paths st)
    = analysed st ++ analysable analyze_audio_file paths
    /\ size_before_total
         (fold_left (analyse_one analyze_audio_file) paths st)
       = fold_left (fun total item => (total + size_kb (snd item))%float)
                   (analysable analyze_audio_file paths)
                   (size_before_total st).
Proof.
  induction paths as [|p paths IH]; intros st; simpl.
  - now rewrite app_nil_r.
  - destruct (IH (analyse_one analyze_audio_file st p)) as [IH1 IH2].
    rewrite IH1, IH2. unfold analyse_one.
    destruct (analyze_audio_file (PyPath.str p)) as [info|]; simpl.
    + now rewrite <- app_assoc.
    + split; reflexivity.
Qed.

(** X20. The analysis loop visits the files in sorted path order and keeps,
    in that order, exactly those the analyzer returns information for,
    each with its path; a file whose analysis fails is dropped and counts
    for nothing.  The total it accumulates is [total_size_before] of what
    it keeps. *)
Theorem analysis_keeps_analysable (audio_files : list PyPath.t) :
  let result := analyse_all analyze_audio_file audio_files in
  analysed result
  = analysable analyze_audio_file (PathOrder.sorted audio_files)
  /\ size_before_total result = total_size_before (analysed result)
  /\ Permutation (PathOrder.sorted audio_files) audio_files
  /\ Sorted (fun a b => PathOrder.leb a b = true)
            (PathOrder.sorted audio_files).
Proof.
  cbv zeta. unfold analyse_all. cbn [analysed size_before_total analysis_console].
  destruct (analyse_loop (PathOrder.sorted audio_files)
                         (mkAnalysis [] 0%float [])) as [H1 H2].
  cbn [analysed size_before_total] in H1, H2.
  destruct (path_sorted_spec audio_files) as [Hperm Hsorted].
  repeat split; trivial.
  rewrite H2, H1. reflexivity.
Qed.

End AnalysisFacts.

(** ** The name of the output *)

Section OutputName.

Local Open Scope string_scope.

Lemma split_on_nonempty (sep : ascii) (s : string) :
  PyStr.split_on sep s <> [].
Proof.
  destruct s as [|c s]; simpl; [discriminate|].
  destruct (Ascii.eqb c sep); [discriminate|].
  destruct (PyStr.split_on sep s); discriminate.
Qed.

Lemma split_on_app (sep : ascii) (d w : string) :
  PyStr.split_on sep (d ++ String sep w)
  = (PyStr.split_on sep d ++ PyStr.split_on sep w)%list.
Proof.
  induction d as [|c d IH]; cbn [append PyStr.split_on].
  - now rewrite Ascii.eqb_refl.
  - destruct (Ascii.eqb c sep); [now rewrite IH|].
    rewrite IH. pose proof (split_on_nonempty sep d) as Hne.
    destruct (PyStr.split_on sep d) as [|x xs]; [congruence | reflexivity].
Qed.

Lemma rfind_dot_app (a b : string) :
  PyStr.rfind_dot (a ++ b)
  = match PyStr.rfind_dot b with
    | Some i => Some (String.length a + i)%nat
    | None => PyStr.rfind_dot a
    end.
Proof.
  induction a as [|c a IH]; cbn [append PyStr.rfind_dot String.length].
  - now destruct (PyStr.rfind_dot b).
  - rewrite IH. destruct (PyStr.rfind_dot b); reflexivity.
Qed.

Lemma take_app (a b : string) : PyStr.take (String.length a) (a ++ b) = a.
Proof.
  induction a as [|c a IH]; simpl.
  - now destruct b.
  - now rewrite IH.
Qed.

Lemma length_append (a b : string) :
  String.length (a ++ b) = (String.length a + String.length b)%nat.
Proof. induction a as [|c a IH]; simpl; [reflexivity | now rewrite IH]. Qed.

Lemma last_app_one {A : Type} (l : list A) (x d : A) :
  last (l ++ [x])%list d = x.
Proof.
  induction l as [|y l IH]; [reflexivity|].
  cbn [app]. destruct (l ++ [x])%list eqn:E; [|exact IH].
  destruct l; discriminate E.
Qed.

(** The stem of [<directory>/<name><extension>] is [<name>], for a
    non-empty name without a slash and an extension of the two the batch
    globs for. *)
Lemma stem_of_audio_file (directory name ext : string) :
  name <> "" -> lacks "/" name = true -> In ext extensions ->
  PyPath.stem (PyPath.Path (directory ++ "/" ++ name ++ ext)) = name.
Proof.
  intros Hname Hslash Hext.
  assert (Hw : lacks "/" (name ++ ext) = true).
  { rewrite lacks_app, Hslash.
    destruct Hext as [<- | [<- | []]]; reflexivity. }
  assert (Hkept : PyPath.kept (name ++ ext) = true).
  { destruct Hext as [<- | [<- | []]]; [|apply ogg_name_kept].
    unfold PyPath.kept. destruct name as [|c [|c' name]]; [congruence| |].
    - cbn [append String.eqb]. now destruct (Ascii.eqb c ".").
    - cbn [append String.eqb]. now destruct (Ascii.eqb c "."). }
  unfold PyPath.stem, PyPath.name, PyPath.Path. cbn [PyPath.parts].
  change (directory ++ "/" ++ name ++ ext)
    with (directory ++ String "/" (name ++ ext)).
  rewrite split_on_app, (split_on_lacks "/" (name ++ ext) Hw).
  rewrite filter_app. cbn [filter]. rewrite Hkept, last_app_one.
  rewrite rfind_dot_app.
  assert (Hdot : PyStr.rfind_dot ext = Some 0%nat)
    by (destruct Hext as [<- | [<- | []]]; reflexivity).
  rewrite Hdot, Nat.add_0_r, length_append.
  assert (Hlen : String.length ext = 4%nat)
    by (destruct Hext as [<- | [<- | []]]; reflexivity).
  rewrite Hlen.
  assert (Hpos : (0 < String.length name)%nat)
    by (destruct name; [congruence | simpl; lia]).
  replace ((0 <? String.length name)%nat
           && (String.length name <? String.length name + 4 - 1)%nat)
    with true.
  - apply take_app.
  - symmetry. apply andb_true_iff. split; apply Nat.ltb_lt; lia.
Qed.

(** X21. The optimized file keeps the name of the original with the extension
    replaced: for [<directory>/<name>.wav] or [<directory>/<name>.ogg],
    with a non-empty name, the encoder writes
    [public/assets/audio/optimized/<category>/<name>.ogg], whatever the
    directory.  So two originals that differ only in their extension are
    written to the same output when they fall in the same category. *)
Theorem output_keeps_the_name (directory name ext : string)
        (info : AssetInfo) :
  name <> "" -> lacks "/" name = true -> In ext extensions ->
  output_of (directory ++ "/" ++ name ++ ext, info)
  = "public/assets/audio/optimized/" ++ categorize_file (file info)
    ++ "/" ++ name ++ ".ogg".
Proof.
  intros Hname Hslash Hext.
  unfold output_of, category_of. cbn [fst snd].
  rewrite (output_path_parts _ _ (classifier_in_registry (file info))).
  rewrite (stem_of_audio_file directory name ext Hname Hslash Hext).
  reflexivity.
Qed.

Lemma output_keeps_the_name_witness :
  output_of ("public/assets/audio" ++ "/" ++ "door_creak.v2" ++ ".wav",
             mkInfo "door_creak.v2.wav" 100 "pcm_s16le" 44100 1 705 1)
  = "public/assets/audio/optimized/"
    ++ categorize_file "door_creak.v2.wav" ++ "/" ++ "door_creak.v2"
    ++ ".ogg".
Proof.
  apply (output_keeps_the_name "public/assets/audio" "door_creak.v2" ".wav"
           (mkInfo "door_creak.v2.wav" 100 "pcm_s16le" 44100 1 705 1)).
  - discriminate.
  - reflexivity.
  - simpl. tauto.
Defined.

End OutputName.

(** ** A generated map to try the theorems on *)

Lemma every_file_has_a_record_witness :
  occurs_in
    (record (fun _ => "100.0") "combat"
            (mkEntry "shotgun_fire.wav" "optimized/combat/shotgun_fire.ogg"
                     "combat" 100 2))
    (generate_typescript_map (fun _ => "100.0") (fun s => s)
                             (files demo_manifest))
  /\ occurs_in
       ("  '" ++ sanitize_key "shotgun_fire.wav" ++ "': {")%string
       (record (fun _ => "100.0") "combat"
               (mkEntry "shotgun_fire.wav"
                        "optimized/combat/shotgun_fire.ogg" "combat" 100 2)).
Proof.
  apply (every_file_has_a_record (fun _ => "100.0") (fun s => s)
           (files demo_manifest)
           (mkEntry "shotgun_fire.wav" "optimized/combat/shotgun_fire.ogg"
                    "combat" 100 2)).
  simpl. left. reflexivity.
Defined.
